(** * The pilet release pipeline of the piral CLI

    A shallow embedding of [tooling/piral-cli/src/apps/publish-pilet.ts]:
    the options record and its defaults, the artifact resolver [getFiles]
    and the publishing routine [publishPilet] with its upload loop and
    final verdict.

    The helpers imported from ['../common'] (file system, registry, build
    backend, HTTP client) are external: they are fields of an environment
    record that act on an abstract world state.  Every call of a helper and
    every message handed to the logger is recorded in a trace of events, so
    that statements such as "no upload was attempted" can be read off a run. *)

From Stdlib Require Import String Ascii List ZArith Bool Lia.
Import ListNotations.
Local Open Scope string_scope.
Local Open Scope list_scope.

(** ** Plain data *)

(** A Node [Buffer]. *)
Definition Buffer : Type := list Byte.byte.

(** [Record<string, string>] as the list of its entries. *)
Definition Dict : Type := list (string * string).

(** [LogLevels] ("Sets the log level to use (1-5)"). *)
Definition LogLevels : Type := Z.

(** [PiletSchemaVersion] and [PublishScheme] are string literal types. *)
Definition PiletSchemaVersion : Type := string.
Definition PublishScheme : Type := string.

(** [PiletPublishSource]: the three cases of the [switch (from)] in
    [getFiles]. *)
Inductive PiletPublishSource : Type :=
| local
| remote
| npm.

(** The message codes handed to [log]. *)
Inductive LogCode : Type :=
| generalDebug_0003
| generalInfo_0000
| httpPostResponse_0067
| failedToUploadPayment_0161
| failedToUploadVersion_0162
| failedToUploadSize_0163
| failedToUpload_0062
| failedToRead_0063.

(** The message codes handed to [fail]. *)
Inductive FailCode : Type :=
| missingPiletFeedUrl_0060
| entryFileMissing_0077
| missingPiletTarball_0061
| failedUploading_0064.

(** What [postFile] resolves to: [{ status, success, response }]. *)
Record PostFileResult : Type := {
  status : Z;
  success : bool;
  response : option string
}.

(** What [triggerBuildPilet] resolves to, as far as [getFiles] reads it:
    [{ root, piletPackage }] with [piletPackage.name]. *)
Record BuildPiletResult : Type := {
  root : string;
  piletPackage_name : string
}.

(** The configuration object [config] of ['../common'], with the four
    properties that [publishPilet] reads. *)
Record Config : Type := {
  config_url : option string;
  config_apiKeys : option Dict;
  config_apiKey : option string;
  config_cert : option string
}.

(** ** JavaScript idioms *)

(** [a ?? b], and a destructuring default whose default may be undefined. *)
Definition nullish {A : Type} (a b : option A) : option A :=
  match a with
  | Some _ => a
  | None => b
  end.

(** A destructuring default [x = d]. *)
Definition withDefault {A : Type} (a : option A) (d : A) : A :=
  match a with
  | Some v => v
  | None => d
  end.

(** The property key an optional string is converted to. *)
Definition propertyKey (k : option string) : string :=
  match k with
  | Some s => s
  | None => "undefined"
  end.

(** [dict[key]]. *)
Fixpoint getProperty (dict : Dict) (key : string) : option string :=
  match dict with
  | [] => None
  | (k, v) :: rest => if String.eqb k key then Some v else getProperty rest key
  end.

(** Truthiness of an optional string: undefined and the empty string are
    falsy. *)
Definition truthy (s : option string) : bool :=
  match s with
  | Some v => negb (String.eqb v EmptyString)
  | None => false
  end.

(** [Array.isArray(source) ? source : [source]]. *)
Definition toArray (source : string + list string) : list string :=
  match source with
  | inl s => [s]
  | inr l => l
  end.

(** The double quote, and a string between double quotes. *)
Definition dquote : string := String (ascii_of_nat 34) EmptyString.
Definition quoted (s : string) : string := dquote ++ s ++ dquote.

(** [xs.join('", "')]. *)
Definition joinQuoted (xs : list string) : string :=
  String.concat (dquote ++ ", " ++ dquote) xs.

(** What is thrown: a fatal error raised by [fail], or the [TypeError] of a
    path function applied to [undefined]. *)
Inductive Thrown : Type :=
| Fatal (code : FailCode) (args : list string)
| TypeError.

Inductive Result (A : Type) : Type :=
| Returned (a : A)
| Threw (e : Thrown).

Arguments Returned {A} a.
Arguments Threw {A} e.

Section Model.

(** The state of the outside world (file system, network, registry), and the
    two opaque option values that are only handed through to the build
    backend: the bundler arguments [_] and the [hooks]. *)
Context {World BundlerArgs Hooks : Type}.

(** ** [PublishPiletOptions] *)

Record PublishPiletOptions : Type := {
  opt_source : option (string + list string);
  opt_url : option string;
  opt_apiKey : option string;
  opt_logLevel : option LogLevels;
  opt_fresh : option bool;
  opt_cert : option string;
  opt_schemaVersion : option PiletSchemaVersion;
  opt_from : option PiletPublishSource;
  opt_fields : option Dict;
  opt_headers : option Dict;
  opt_interactive : option bool;
  opt_bundlerName : option string;
  opt_mode : option PublishScheme;
  opt_args : option BundlerArgs;
  opt_hooks : option Hooks
}.

(** The argument object of [triggerBuildPilet]. *)
Record BuildPiletArgs : Type := {
  build_args : BundlerArgs;
  build_bundlerName : option string;
  build_entryModule : string;
  build_fresh : bool;
  build_logLevel : LogLevels;
  build_originalSchemaVersion : option PiletSchemaVersion;
  build_watch : bool;
  build_optimizeModules : bool;
  build_sourceMaps : bool;
  build_declaration : bool;
  build_contentHash : bool;
  build_minify : bool;
  build_hooks : Hooks
}.

(** ** Events *)

(** An argument of a [log] call. *)
Inductive LogArg : Type :=
| ArgText (s : string)
| ArgResponse (r : option string)
| ArgResult (r : PostFileResult).

(** What a run does that can be observed from outside: calls of the logger
    and calls of the helpers of ['../common']. *)
Inductive Event : Type :=
| EvSetLogLevel (logLevel : LogLevels)
| EvProgress (format : string) (args : list string)
| EvLog (code : LogCode) (arg : LogArg)
| EvLogDone (message : string)
| EvCheckExists (target : option string)
| EvReadBinary (dir file : string)
| EvMatchAnyPilet (baseDir : string) (sources : list string)
| EvTriggerBuildPilet (args : BuildPiletArgs)
| EvCreatePiletPackage (root source target : string)
| EvMatchFiles (baseDir pattern : string)
| EvDownloadFile (url : string) (ca : option Buffer)
| EvFindNpmTarball (packageRef : string)
| EvPostFile (url : string) (mode : PublishScheme) (apiKey : option string)
    (content : Buffer) (fields headers : Dict) (ca : option Buffer)
    (interactive : bool).

(** ** Asynchronous computations *)

(** An [async] function: started in a world, it ends in a world with a
    result, having produced events in order. *)
Definition Async (A : Type) : Type := World -> Result A * World * list Event.

Definition ret {A : Type} (a : A) : Async A :=
  fun w => (Returned a, w, []).

Definition throw {A : Type} (e : Thrown) : Async A :=
  fun w => (Threw e, w, []).

Definition bind {A B : Type} (m : Async A) (k : A -> Async B) : Async B :=
  fun w =>
    match m w with
    | (Returned a, w1, t1) =>
        match k a w1 with
        | (r, w2, t2) => (r, w2, t1 ++ t2)
        end
    | (Threw e, w1, t1) => (Threw e, w1, t1)
    end.

Definition emit (e : Event) : Async unit :=
  fun w => (Returned tt, w, [e]).

(** A call of a helper: the event is recorded, the helper acts on the
    world. *)
Definition call {A : Type} (e : Event) (f : World -> A * World) : Async A :=
  fun w => match f w with (a, w1) => (Returned a, w1, [e]) end.

Notation "x <- c ;; k" := (bind c (fun x => k))
  (at level 61, c at next level, right associativity).
Notation "c ;; k" := (bind c (fun _ => k))
  (at level 61, right associativity).

(** [Promise.all(xs.map(f))].  [map] starts the tasks in index order and
    [Promise.all] resolves to their results in index order once all of them
    are done.  The model runs the tasks one after the other in index order,
    which is the order of the calls for tasks that are one call of a helper;
    tasks with more than one [await] are run in rounds of this, see
    [promiseAllStaged]. *)
Fixpoint promiseAllMap {A B : Type} (f : A -> Async B) (xs : list A)
  : Async (list B) :=
  match xs with
  | [] => ret []
  | x :: rest =>
      y <- f x ;;
      ys <- promiseAllMap f rest ;;
      ret (y :: ys)
  end.

(** ** The environment *)

(** Everything [publish-pilet.ts] imports or reads from outside: the
    functions of Node's [path], [process.cwd()], [LogLevels.info], the
    empty object [{}] as bundler arguments and as hooks, the [config] object
    and the helpers of ['../common'], which act on the world. *)
Record Env : Type := {
  path_resolve : string -> string -> string;
  path_relative : string -> string -> string;
  path_dirname : string -> string;
  path_basename : string -> string;
  process_cwd : string;
  LogLevels_info : LogLevels;
  emptyArgs : BundlerArgs;
  emptyHooks : Hooks;
  config : Config;
  env_checkExists : option string -> World -> bool * World;
  env_readBinary : string -> string -> World -> option Buffer * World;
  env_matchFiles : string -> string -> World -> list string * World;
  env_matchAnyPilet : string -> list string -> World -> list string * World;
  env_triggerBuildPilet : BuildPiletArgs -> World -> BuildPiletResult * World;
  env_createPiletPackage :
    string -> string -> string -> World -> string * World;
  env_findNpmTarball : string -> World -> string * World;
  env_downloadFile : string -> option Buffer -> World -> list string * World;
  env_postFile :
    string -> PublishScheme -> option string -> Buffer -> Dict -> Dict ->
    option Buffer -> bool -> World -> PostFileResult * World
}.

Context (env : Env).

(** ** The helpers, as calls that leave an event *)

Definition setLogLevel (logLevel : LogLevels) : Async unit :=
  emit (EvSetLogLevel logLevel).

Definition progress (format : string) (args : list string) : Async unit :=
  emit (EvProgress format args).

Definition log (code : LogCode) (arg : LogArg) : Async unit :=
  emit (EvLog code arg).

Definition logDone (message : string) : Async unit :=
  emit (EvLogDone message).

(** Modelled from the spec: [fail] is imported from ['../common'], which is
    not among the sources.  The spec calls the errors raised through it
    fatal: they "abort the whole run" and "surface immediately to the caller
    with a specific error code".  So [fail] never returns: it throws, and
    what is thrown carries the code and the arguments. *)
Definition fail {A : Type} (code : FailCode) (args : list string) : Async A :=
  throw (Fatal code args).

Definition checkExists (target : option string) : Async bool :=
  call (EvCheckExists target) (env_checkExists env target).

Definition readBinary (dir file : string) : Async (option Buffer) :=
  call (EvReadBinary dir file) (env_readBinary env dir file).

Definition matchFiles (baseDir pattern : string) : Async (list string) :=
  call (EvMatchFiles baseDir pattern) (env_matchFiles env baseDir pattern).

Definition matchAnyPilet (baseDir : string) (sources : list string)
  : Async (list string) :=
  call (EvMatchAnyPilet baseDir sources) (env_matchAnyPilet env baseDir sources).

Definition triggerBuildPilet (args : BuildPiletArgs) : Async BuildPiletResult :=
  call (EvTriggerBuildPilet args) (env_triggerBuildPilet env args).

Definition createPiletPackage (root source target : string) : Async string :=
  call (EvCreatePiletPackage root source target)
       (env_createPiletPackage env root source target).

Definition findNpmTarball (packageRef : string) : Async string :=
  call (EvFindNpmTarball packageRef) (env_findNpmTarball env packageRef).

Definition downloadFile (url : string) (ca : option Buffer)
  : Async (list string) :=
  call (EvDownloadFile url ca) (env_downloadFile env url ca).

Definition postFile (url : string) (mode : PublishScheme)
  (apiKey : option string) (content : Buffer) (fields headers : Dict)
  (ca : option Buffer) (interactive : bool) : Async PostFileResult :=
  call (EvPostFile url mode apiKey content fields headers ca interactive)
       (env_postFile env url mode apiKey content fields headers ca interactive).

(** ** [publishPiletDefaults] *)

(** The object literal of the source, each property with the type of its
    value. *)
Record PublishPiletDefaults : Type := {
  def_url : option string;
  def_apiKey : option string;
  def_fresh : bool;
  def_cert : option string;
  def_logLevel : LogLevels;
  def_schemaVersion : option PiletSchemaVersion;
  def_mode : PublishScheme;
  def_from : PiletPublishSource;
  def_fields : Dict;
  def_headers : Dict;
  def_interactive : bool
}.

Definition publishPiletDefaults : PublishPiletDefaults := {|
  def_url := None;
  def_apiKey := None;
  def_fresh := false;
  def_cert := None;
  def_logLevel := LogLevels_info env;
  def_schemaVersion := None;
  def_mode := "basic";
  def_from := local;
  def_fields := [];
  def_headers := [];
  def_interactive := false
|}.

(** ** [getFiles] *)

(** [allFiles.reduce((result, files) => [...result, ...files], [])]. *)
Definition flatten (allFiles : list (list string)) : list string :=
  fold_left (fun result files => result ++ files) allFiles [].

(** The callback that [getFiles] maps over the entry modules, run from its
    start to its end: build, then pack. *)
Definition buildAndPack (fresh : bool)
  (originalSchemaVersion : option PiletSchemaVersion) (logLevel : LogLevels)
  (bundlerName : option string) (args : BundlerArgs) (hooks : Hooks)
  (entryModule : string) : Async string :=
  progress "Triggering pilet build ..." [] ;;
  built <- triggerBuildPilet {|
    build_args := args;
    build_bundlerName := bundlerName;
    build_entryModule := entryModule;
    build_fresh := fresh;
    build_logLevel := logLevel;
    build_originalSchemaVersion := originalSchemaVersion;
    build_watch := false;
    build_optimizeModules := false;
    build_sourceMaps := true;
    build_declaration := true;
    build_contentHash := true;
    build_minify := true;
    build_hooks := hooks
  |} ;;
  let name := piletPackage_name built in
  log generalDebug_0003
      (ArgText ("Pilet " ++ quoted name ++ " built successfully!")) ;;
  progress "Triggering pilet pack ..." [] ;;
  file <- createPiletPackage (root built) "." "." ;;
  log generalDebug_0003
      (ArgText ("Pilet " ++ quoted name ++ " packed successfully!")) ;;
  ret file.

(** The same callback cut at its two [await]s.  The first part runs up to
    the call of [triggerBuildPilet]; the second runs once the build is
    there, up to the call of [createPiletPackage]; the third runs once the
    package is there. *)
Definition buildStage (fresh : bool)
  (originalSchemaVersion : option PiletSchemaVersion) (logLevel : LogLevels)
  (bundlerName : option string) (args : BundlerArgs) (hooks : Hooks)
  (entryModule : string) : Async BuildPiletResult :=
  progress "Triggering pilet build ..." [] ;;
  triggerBuildPilet {|
    build_args := args;
    build_bundlerName := bundlerName;
    build_entryModule := entryModule;
    build_fresh := fresh;
    build_logLevel := logLevel;
    build_originalSchemaVersion := originalSchemaVersion;
    build_watch := false;
    build_optimizeModules := false;
    build_sourceMaps := true;
    build_declaration := true;
    build_contentHash := true;
    build_minify := true;
    build_hooks := hooks
  |}.

Definition packStage (built : BuildPiletResult) : Async (string * string) :=
  let name := piletPackage_name built in
  log generalDebug_0003
      (ArgText ("Pilet " ++ quoted name ++ " built successfully!")) ;;
  progress "Triggering pilet pack ..." [] ;;
  file <- createPiletPackage (root built) "." "." ;;
  ret (name, file).

Definition doneStage (packed : string * string) : Async string :=
  let (name, file) := packed in
  log generalDebug_0003
      (ArgText ("Pilet " ++ quoted name ++ " packed successfully!")) ;;
  ret file.

(** [Promise.all(xs.map(async (x) => { ...; await ...; ...; await ...; ... }))]
    for tasks with two [await]s.  [map] runs every task up to its first
    [await] before any task goes on: the first parts run in index order.  A
    task goes on when what it awaits is there; the helpers are taken to be
    done in the order of their calls, so the second parts run in index
    order, and then the third parts.  The results are in index order. *)
Definition promiseAllStaged {A B C D : Type} (first : A -> Async B)
  (second : B -> Async C) (third : C -> Async D) (xs : list A)
  : Async (list D) :=
  ys <- promiseAllMap first xs ;;
  zs <- promiseAllMap second ys ;;
  promiseAllMap third zs.

Definition getFiles (baseDir : string) (sources : list string)
  (from : PiletPublishSource) (fresh : bool)
  (originalSchemaVersion : option PiletSchemaVersion) (logLevel : LogLevels)
  (bundlerName : option string) (args : BundlerArgs) (ca : option Buffer)
  (hooks : Hooks) : Async (list string) :=
  if fresh then
    log generalDebug_0003
        (ArgText ("Detected " ++ quoted "--fresh"
                  ++ ". Trying to resolve the package.json.")) ;;
    allEntries <- matchAnyPilet baseDir sources ;;
    (if Nat.eqb (length allEntries) 0
     then fail entryFileMissing_0077 []
     else ret tt) ;;
    promiseAllStaged
      (buildStage fresh originalSchemaVersion logLevel bundlerName args hooks)
      packStage doneStage allEntries
  else
    log generalDebug_0003
        (ArgText ("Did not find fresh flag. Trying to match from "
                  ++ quoted (match from with
                             | local => "local"
                             | remote => "remote"
                             | npm => "npm"
                             end) ++ ".")) ;;
    match from with
    | local =>
        log generalDebug_0003
            (ArgText ("Matching files using "
                      ++ quoted (joinQuoted sources) ++ ".")) ;;
        allFiles <- promiseAllMap (fun s => matchFiles baseDir s) sources ;;
        ret (flatten allFiles)
    | remote =>
        log generalDebug_0003
            (ArgText ("Download file from "
                      ++ quoted (joinQuoted sources) ++ ".")) ;;
        allFiles <- promiseAllMap (fun s => downloadFile s ca) sources ;;
        ret (flatten allFiles)
    | npm =>
        log generalDebug_0003
            (ArgText ("View npm package "
                      ++ quoted (joinQuoted sources) ++ ".")) ;;
        allUrls <- promiseAllMap (fun s => findNpmTarball s) sources ;;
        log generalDebug_0003
            (ArgText ("Download file from "
                      ++ quoted (joinQuoted allUrls) ++ ".")) ;;
        allFiles <- promiseAllMap (fun url => downloadFile url ca) allUrls ;;
        ret (flatten allFiles)
    end.

(** ** [publishPilet] *)

(** The local variables that the destructuring of [options] binds. *)
Record Locals : Type := {
  fresh : bool;
  source : string + list string;
  url : option string;
  apiKey : option string;
  logLevel : LogLevels;
  from : PiletPublishSource;
  schemaVersion : option PiletSchemaVersion;
  cert : option string;
  fields : Dict;
  headers : Dict;
  mode : PublishScheme;
  interactive : bool;
  args : BundlerArgs;
  hooks : Hooks;
  bundlerName : option string
}.

(** [config.apiKeys?.[url]]. *)
Definition apiKeysAt (url : option string) : option string :=
  match config_apiKeys (config env) with
  | Some apiKeys => getProperty apiKeys (propertyKey url)
  | None => None
  end.

(** [const { fresh = ..., source = ..., ... } = options]: the defaults are
    evaluated from left to right, so [source] sees the value of [fresh] and
    [apiKey] the value of [url]. *)
Definition destructure (options : PublishPiletOptions) : Locals :=
  let fresh := withDefault (opt_fresh options) (def_fresh publishPiletDefaults) in
  let source :=
    withDefault (opt_source options)
                (inl (if fresh then "./src/index" else "*.tgz")) in
  let url :=
    nullish (opt_url options)
            (nullish (config_url (config env)) (def_url publishPiletDefaults)) in
  let apiKey :=
    nullish (opt_apiKey options)
            (nullish (apiKeysAt url)
                     (nullish (config_apiKey (config env))
                              (def_apiKey publishPiletDefaults))) in
  {|
    fresh := fresh;
    source := source;
    url := url;
    apiKey := apiKey;
    logLevel := withDefault (opt_logLevel options) (def_logLevel publishPiletDefaults);
    from := withDefault (opt_from options) (def_from publishPiletDefaults);
    schemaVersion :=
      nullish (opt_schemaVersion options) (def_schemaVersion publishPiletDefaults);
    cert :=
      nullish (opt_cert options)
              (nullish (config_cert (config env)) (def_cert publishPiletDefaults));
    fields := withDefault (opt_fields options) (def_fields publishPiletDefaults);
    headers := withDefault (opt_headers options) (def_headers publishPiletDefaults);
    mode := withDefault (opt_mode options) (def_mode publishPiletDefaults);
    interactive :=
      withDefault (opt_interactive options) (def_interactive publishPiletDefaults);
    args := withDefault (opt_args options) (emptyArgs env);
    hooks := withDefault (opt_hooks options) (emptyHooks env);
    bundlerName := opt_bundlerName options
  |}.

(** [if (!url) { fail(code); }]: past the check [url] is a non-empty
    string. *)
Definition failIfNot (url : option string) (code : FailCode) : Async string :=
  match url with
  | Some u => if truthy url then ret u else fail code []
  | None => fail code []
  end.

(** Lines 223 to 231: [ca] stays undefined unless [checkExists(cert)]
    holds; then the certificate file is read. *)
Definition readCertificate (cert : option string) : Async (option Buffer) :=
  log generalDebug_0003 (ArgText "Checking if certificate exists.") ;;
  found <- checkExists cert ;;
  if found then
    match cert with
    | Some cert =>
        let dir := path_dirname env cert in
        let file := path_basename env cert in
        log generalDebug_0003
            (ArgText ("Reading certificate file " ++ quoted file
                      ++ " from " ++ quoted dir ++ ".")) ;;
        readBinary dir file
    | None => throw TypeError
    end
  else ret None.

(** Lines 254 to 270: what is done with the result of [postFile].  The
    value is the new [successfulUploads]. *)
Definition reportResult (successfulUploads : list string)
  (file fileName : string) (result : PostFileResult) : Async (list string) :=
  if success result then
    (if truthy (response result)
     then log httpPostResponse_0067 (ArgResult result)
     else ret tt) ;;
    progress "Published successfully!" [] ;;
    ret (successfulUploads ++ [file])
  else if Z.eqb (status result) 402 then
    log failedToUploadPayment_0161 (ArgResponse (response result)) ;;
    ret successfulUploads
  else if Z.eqb (status result) 409 then
    log failedToUploadVersion_0162 (ArgResponse (response result)) ;;
    ret successfulUploads
  else if Z.eqb (status result) 413 then
    log failedToUploadSize_0163 (ArgResponse (response result)) ;;
    ret successfulUploads
  else
    log failedToUpload_0062 (ArgText fileName) ;;
    ret successfulUploads.

(** Lines 246 to 275: the body of the loop over [files]. *)
Definition uploadFile (fullBase url : string) (l : Locals) (ca : option Buffer)
  (successfulUploads : list string) (file : string) : Async (list string) :=
  log generalDebug_0003 (ArgText "Reading the file for upload ...") ;;
  let fileName := path_relative env fullBase file in
  content <- readBinary fullBase fileName ;;
  uploads <- match content with
             | Some content =>
                 progress ("Publishing " ++ quoted "%s" ++ " to "
                           ++ quoted "%s" ++ " ...") [file; url] ;;
                 result <- postFile url (mode l) (apiKey l) content (fields l)
                                    (headers l) ca (interactive l) ;;
                 reportResult successfulUploads file fileName result
             | None =>
                 log failedToRead_0063 (ArgText fileName) ;;
                 ret successfulUploads
             end ;;
  log generalDebug_0003 (ArgText "Finished uploading the file.") ;;
  ret uploads.

(** [for (const file of files) { ... }]. *)
Fixpoint uploadFiles (fullBase url : string) (l : Locals) (ca : option Buffer)
  (successfulUploads : list string) (files : list string)
  : Async (list string) :=
  match files with
  | [] => ret successfulUploads
  | file :: rest =>
      uploads <- uploadFile fullBase url l ca successfulUploads file ;;
      uploadFiles fullBase url l ca uploads rest
  end.

(** Lines 243 to 282: the loop and the verdict. *)
Definition uploadAndReport (fullBase url : string) (l : Locals)
  (ca : option Buffer) (files : list string) : Async unit :=
  log generalInfo_0000 (ArgText ("Using feed service " ++ quoted url ++ ".")) ;;
  successfulUploads <- uploadFiles fullBase url l ca [] files ;;
  if Nat.eqb (length files) (length successfulUploads)
  then logDone "Pilet(s) published successfully!"
  else fail failedUploading_0064 [].

(** Lines 233 to 282: resolution of the files, the check that there is one,
    the loop and the verdict. *)
Definition publishFiles (fullBase url : string) (l : Locals)
  (ca : option Buffer) : Async unit :=
  log generalDebug_0003 (ArgText "Getting the tgz files ...") ;;
  let sources := toArray (source l) in
  files <- getFiles fullBase sources (from l) (fresh l) (schemaVersion l)
                    (logLevel l) (bundlerName l) (args l) ca (hooks l) ;;
  log generalDebug_0003 (ArgText "Received available tgz files.") ;;
  (if Nat.eqb (length files) 0
   then fail missingPiletTarball_0061 sources
   else ret tt) ;;
  uploadAndReport fullBase url l ca files.

(** [publishPilet(baseDir = process.cwd(), options = {})]; the options
    [{}] are the record whose fields are all undefined. *)
Definition publishPilet (baseDir : option string)
  (options : PublishPiletOptions) : Async unit :=
  let baseDir := withDefault baseDir (process_cwd env) in
  let l := destructure options in
  let fullBase := path_resolve env (process_cwd env) baseDir in
  setLogLevel (logLevel l) ;;
  progress "Reading configuration ..." [] ;;
  url <- failIfNot (url l) missingPiletFeedUrl_0060 ;;
  ca <- readCertificate (cert l) ;;
  publishFiles fullBase url l ca.

End Model.

(** ** Reading a trace *)

(** How the outcome of one artifact is classified. *)
Inductive Classification : Type :=
| Success
| PaymentRequired
| VersionConflict
| PayloadTooLarge
| GenericFailure
| FileUnreadable.

Definition isSuccess (c : Classification) : bool :=
  match c with
  | Success => true
  | _ => false
  end.

Definition isFileUnreadable (c : Classification) : bool :=
  match c with
  | FileUnreadable => true
  | _ => false
  end.

(** The branch of [reportResult] that a result takes. *)
Definition reported (result : PostFileResult) : Classification :=
  if success result then Success
  else if Z.eqb (status result) 402 then PaymentRequired
  else if Z.eqb (status result) 409 then VersionConflict
  else if Z.eqb (status result) 413 then PayloadTooLarge
  else GenericFailure.

(** The classification table of the specification, by HTTP status. *)
Definition is2xx (status : Z) : bool :=
  Z.leb 200 status && Z.ltb status 300.

Definition spec_classification (status : Z) : Classification :=
  if is2xx status then Success
  else if Z.eqb status 402 then PaymentRequired
  else if Z.eqb status 409 then VersionConflict
  else if Z.eqb status 413 then PayloadTooLarge
  else GenericFailure.

(** Modelled from the spec: [postFile] is imported from ['../common'], which
    is not among the sources, so nothing in them says when it sets the
    [success] flag of its result.  The specification's table has "2xx" for
    success and "non-2xx" for every failure: the flag is set exactly for a
    status from 200 to 299. *)
Definition postFileContract (result : PostFileResult) : Prop :=
  success result = is2xx (status result).

Section Observations.

Context {BundlerArgs Hooks : Type}.

(** The outcome that an event records, if it records one: the message that
    ends each branch of the upload loop's body. *)
Definition outcomeOf (e : @Event BundlerArgs Hooks) : option Classification :=
  match e with
  | EvProgress format _ =>
      if String.eqb format "Published successfully!" then Some Success else None
  | EvLog failedToUploadPayment_0161 _ => Some PaymentRequired
  | EvLog failedToUploadVersion_0162 _ => Some VersionConflict
  | EvLog failedToUploadSize_0163 _ => Some PayloadTooLarge
  | EvLog failedToUpload_0062 _ => Some GenericFailure
  | EvLog failedToRead_0063 _ => Some FileUnreadable
  | _ => None
  end.

(** The outcomes recorded in a trace, in order. *)
Fixpoint outcomes (trace : list (@Event BundlerArgs Hooks)) : list Classification :=
  match trace with
  | [] => []
  | e :: rest =>
      match outcomeOf e with
      | Some c => c :: outcomes rest
      | None => outcomes rest
      end
  end.

Definition isPostFile (e : @Event BundlerArgs Hooks) : bool :=
  match e with
  | EvPostFile _ _ _ _ _ _ _ _ => true
  | _ => false
  end.

Definition isReadBinary (e : @Event BundlerArgs Hooks) : bool :=
  match e with
  | EvReadBinary _ _ => true
  | _ => false
  end.

Definition isTriggerBuildPilet (e : @Event BundlerArgs Hooks) : bool :=
  match e with
  | EvTriggerBuildPilet _ => true
  | _ => false
  end.



(** A call of a helper that reads the file system, runs a build or goes to
    the network; the calls of the logger are not. *)
Definition isHelperCall (e : @Event BundlerArgs Hooks) : bool :=
  match e with
  | EvSetLogLevel _ | EvProgress _ _ | EvLog _ _ | EvLogDone _ => false
  | _ => true
  end.

(** The upload attempts of a trace, the file reads and the helper calls. *)
Definition posts (trace : list (@Event BundlerArgs Hooks)) : list (@Event BundlerArgs Hooks) := filter isPostFile trace.
Definition reads (trace : list (@Event BundlerArgs Hooks)) : list (@Event BundlerArgs Hooks) := filter isReadBinary trace.
Definition helperCalls (trace : list (@Event BundlerArgs Hooks)) : list (@Event BundlerArgs Hooks) :=
  filter isHelperCall trace.

End Observations.

(** ** What a turn of the loop records *)

Section Turns.

Context {World BundlerArgs Hooks : Type}.
Context (env : @Env World BundlerArgs Hooks).

(** The new [successfulUploads]: the file is pushed exactly on success. *)
Definition pushed (c : Classification) (successfulUploads : list string)
  (file : string) : list string :=
  if isSuccess c then successfulUploads ++ [file] else successfulUploads.

(** What one turn of the loop records, by what [readBinary] and [postFile]
    give. *)
Definition outcomeAt (fullBase url : string) (l : @Locals BundlerArgs Hooks)
  (ca : option Buffer) (file : string) (w : World) : Classification :=
  match env_readBinary env fullBase (path_relative env fullBase file) w with
  | (Some content, w1) =>
      reported (fst (env_postFile env url (mode l) (apiKey l) content
                                  (fields l) (headers l) ca (interactive l) w1))
  | (None, _) => FileUnreadable
  end.

(** The world after that turn. *)
Definition worldAfter (fullBase url : string) (l : @Locals BundlerArgs Hooks)
  (ca : option Buffer) (file : string) (w : World) : World :=
  match env_readBinary env fullBase (path_relative env fullBase file) w with
  | (Some content, w1) =>
      snd (env_postFile env url (mode l) (apiKey l) content
                        (fields l) (headers l) ca (interactive l) w1)
  | (None, w1) => w1
  end.

(** The outcomes of the turns of the loop over [files], the first of them
    in the world [w]: the sequence of the per-file outcomes. *)
Fixpoint loopOutcomes (fullBase url : string) (l : @Locals BundlerArgs Hooks)
  (ca : option Buffer) (files : list string) (w : World)
  : list Classification :=
  match files with
  | [] => []
  | file :: rest =>
      outcomeAt fullBase url l ca file w
      :: loopOutcomes fullBase url l ca rest
                      (worldAfter fullBase url l ca file w)
  end.

(** The results of the calls of a helper [g], one per element and each in
    some world. *)
Definition answered {A B : Type} (g : A -> World -> B * World)
  (xs : list A) (ys : list B) : Prop :=
  Forall2 (fun x y => exists w w', g x w = (y, w')) xs ys.

(** A trace that records no outcome and holds no call of [postFile]. *)
Definition silent (trace : list (@Event BundlerArgs Hooks)) : Prop :=
  outcomes trace = [] /\ posts trace = [].

(** Two records of locals that differ in [source] at most. *)
Definition sameButSource (l1 l2 : @Locals BundlerArgs Hooks) : Prop :=
  fresh l1 = fresh l2 /\ url l1 = url l2 /\ apiKey l1 = apiKey l2
  /\ logLevel l1 = logLevel l2 /\ from l1 = from l2
  /\ schemaVersion l1 = schemaVersion l2 /\ cert l1 = cert l2
  /\ fields l1 = fields l2 /\ headers l1 = headers l2 /\ mode l1 = mode l2
  /\ interactive l1 = interactive l2 /\ args l1 = args l2
  /\ hooks l1 = hooks l2 /\ bundlerName l1 = bundlerName l2.

(** [{ ...options, source }]: the options with another [source]. *)
Definition withSource (options : @PublishPiletOptions BundlerArgs Hooks)
  (src : option (string + list string)) : PublishPiletOptions := {|
  opt_source := src;
  opt_url := opt_url options;
  opt_apiKey := opt_apiKey options;
  opt_logLevel := opt_logLevel options;
  opt_fresh := opt_fresh options;
  opt_cert := opt_cert options;
  opt_schemaVersion := opt_schemaVersion options;
  opt_from := opt_from options;
  opt_fields := opt_fields options;
  opt_headers := opt_headers options;
  opt_interactive := opt_interactive options;
  opt_bundlerName := opt_bundlerName options;
  opt_mode := opt_mode options;
  opt_args := opt_args options;
  opt_hooks := opt_hooks options
|}.

End Turns.

(** ** The calls of a run *)

Section Calls.

Context {World BundlerArgs Hooks : Type}.
Context (env : @Env World BundlerArgs Hooks).

(** A call that resolves the files or looks for the certificate: every
    helper call but the reads and the posts. *)
Definition isResolutionCall (e : @Event BundlerArgs Hooks) : bool :=
  match e with
  | EvCheckExists _ | EvMatchAnyPilet _ _ | EvTriggerBuildPilet _
  | EvCreatePiletPackage _ _ _ | EvMatchFiles _ _ | EvDownloadFile _ _
  | EvFindNpmTarball _ => true
  | _ => false
  end.

Definition isLogDone (e : @Event BundlerArgs Hooks) : bool :=
  match e with
  | EvLogDone _ => true
  | _ => false
  end.

(** An event of the upload loop and the verdict that no stage before them
    leaves: a post, a recorded outcome or the message of success. *)
Definition isUploadEvent (e : @Event BundlerArgs Hooks) : bool :=
  isPostFile e || isLogDone e
  || match outcomeOf e with
     | Some _ => true
     | None => false
     end.

(** The helper calls of one turn of the loop in the world [w]: the read of
    the file and, when it gave a content, the post of that content. *)
Definition turnCalls (fullBase url : string) (l : @Locals BundlerArgs Hooks)
  (ca : option Buffer) (file : string) (w : World)
  : list (@Event BundlerArgs Hooks) :=
  match env_readBinary env fullBase (path_relative env fullBase file) w with
  | (Some content, _) =>
      [EvReadBinary fullBase (path_relative env fullBase file);
       EvPostFile url (mode l) (apiKey l) content (fields l) (headers l) ca
                  (interactive l)]
  | (None, _) => [EvReadBinary fullBase (path_relative env fullBase file)]
  end.

(** The helper calls of the turns over [files], the first of them in the
    world [w]. *)
Fixpoint loopCalls (fullBase url : string) (l : @Locals BundlerArgs Hooks)
  (ca : option Buffer) (files : list string) (w : World)
  : list (@Event BundlerArgs Hooks) :=
  match files with
  | [] => []
  | file :: rest =>
      turnCalls fullBase url l ca file w
      ++ loopCalls fullBase url l ca rest (worldAfter env fullBase url l ca file w)
  end.

(** The files of [files] whose turn ends in success, the first turn in the
    world [w]. *)
Fixpoint published (fullBase url : string) (l : @Locals BundlerArgs Hooks)
  (ca : option Buffer) (files : list string) (w : World) : list string :=
  match files with
  | [] => []
  | file :: rest =>
      pushed (outcomeAt env fullBase url l ca file w) [] file
      ++ published fullBase url l ca rest (worldAfter env fullBase url l ca file w)
  end.

(** The argument object that [getFiles] hands to [triggerBuildPilet] for an
    entry module. *)
Definition buildArgsOf (fresh : bool)
  (originalSchemaVersion : option PiletSchemaVersion) (logLevel : LogLevels)
  (bundlerName : option string) (args : BundlerArgs) (hooks : Hooks)
  (entryModule : string) : @BuildPiletArgs BundlerArgs Hooks := {|
  build_args := args;
  build_bundlerName := bundlerName;
  build_entryModule := entryModule;
  build_fresh := fresh;
  build_logLevel := logLevel;
  build_originalSchemaVersion := originalSchemaVersion;
  build_watch := false;
  build_optimizeModules := false;
  build_sourceMaps := true;
  build_declaration := true;
  build_contentHash := true;
  build_minify := true;
  build_hooks := hooks
|}.

(** [file] is what packing gave for the root of a build of [entryModule]. *)
Definition packedFrom (fresh : bool)
  (originalSchemaVersion : option PiletSchemaVersion) (logLevel : LogLevels)
  (bundlerName : option string) (args : BundlerArgs) (hooks : Hooks)
  (entryModule file : string) : Prop :=
  exists w built w1 w2 w3,
    env_triggerBuildPilet env
      (buildArgsOf fresh originalSchemaVersion logLevel bundlerName args hooks
                   entryModule) w
    = (built, w1)
    /\ env_createPiletPackage env (root built) "." "." w2 = (file, w3).

End Calls.

(** ** A scripted environment *)

(** The world is the queue of the responses that the feed service will
    give.  Paths are kept as they are, the certificate file does not exist,
    [matchAnyPilet] finds [entries], a pattern matches the files that [glob]
    gives, every file but those of [unreadable] can be read, and [postFile]
    takes the next response of the queue. *)
Definition scripted (entries : list string) (glob : string -> list string)
  (unreadable : list string) (cfg : Config)
  : @Env (list PostFileResult) unit unit := {|
  path_resolve := fun _ baseDir => baseDir;
  path_relative := fun _ file => file;
  path_dirname := fun _ => ".";
  path_basename := fun file => file;
  process_cwd := "/work";
  LogLevels_info := 3%Z;
  emptyArgs := tt;
  emptyHooks := tt;
  config := cfg;
  env_checkExists := fun _ w => (false, w);
  env_readBinary := fun _ file w =>
    (if existsb (String.eqb file) unreadable then None else Some [], w);
  env_matchFiles := fun _ pattern w => (glob pattern, w);
  env_matchAnyPilet := fun _ _ w => (entries, w);
  env_triggerBuildPilet := fun a w =>
    ({| root := build_entryModule a; piletPackage_name := "pilet" |}, w);
  env_createPiletPackage := fun root _ _ w => ((root ++ ".tgz")%string, w);
  env_findNpmTarball := fun packageRef w => (("https://registry/" ++ packageRef)%string, w);
  env_downloadFile := fun url _ w => ([url], w);
  env_postFile := fun _ _ _ _ _ _ _ _ w =>
    match w with
    | r :: rest => (r, rest)
    | [] => ({| status := 500; success := false; response := None |}, [])
    end
|}.

Definition noConfig : Config := {|
  config_url := None;
  config_apiKeys := None;
  config_apiKey := None;
  config_cert := None
|}.

(** The options object [{}], and one that names the feed and the source. *)
Definition noOptions : @PublishPiletOptions unit unit := {|
  opt_source := None;
  opt_url := None;
  opt_apiKey := None;
  opt_logLevel := None;
  opt_fresh := None;
  opt_cert := None;
  opt_schemaVersion := None;
  opt_from := None;
  opt_fields := None;
  opt_headers := None;
  opt_interactive := None;
  opt_bundlerName := None;
  opt_mode := None;
  opt_args := None;
  opt_hooks := None
|}.

Definition feedOptions (src : option (string + list string))
  (certificate : option string) (freshBuild : option bool)
  (origin : option PiletPublishSource) : @PublishPiletOptions unit unit := {|
  opt_source := src;
  opt_url := Some "https://feed.example/api";
  opt_apiKey := Some "secret";
  opt_logLevel := None;
  opt_fresh := freshBuild;
  opt_cert := certificate;
  opt_schemaVersion := None;
  opt_from := origin;
  opt_fields := None;
  opt_headers := None;
  opt_interactive := None;
  opt_bundlerName := None;
  opt_mode := None;
  opt_args := None;
  opt_hooks := None
|}.

(** Responses of the feed service. *)
Definition ok200 : PostFileResult :=
  {| status := 200; success := true; response := None |}.
Definition conflict409 : PostFileResult :=
  {| status := 409; success := false; response := Some "Conflict" |}.

(** One glob that matches nothing, one that matches two archives. *)
Definition globNone (pattern : string) : list string := [].
Definition globTwo (pattern : string) : list string :=
  if String.eqb pattern "*.tgz" then ["a.tgz"; "b.tgz"] else [].


(** A configuration that names a feed, a key for that feed and a key for
    all feeds. *)
Definition keyedConfig : Config := {|
  config_url := Some "https://feed.example/api";
  config_apiKeys := Some [("https://other.example/api", "other-key");
                          ("https://feed.example/api", "feed-key")];
  config_apiKey := Some "global-key";
  config_cert := None
|}.

(** The options whose [url] is the empty string. *)
Definition emptyUrlOptions : @PublishPiletOptions unit unit := {|
  opt_source := None;
  opt_url := Some EmptyString;
  opt_apiKey := None;
  opt_logLevel := None;
  opt_fresh := None;
  opt_cert := None;
  opt_schemaVersion := None;
  opt_from := None;
  opt_fields := None;
  opt_headers := None;
  opt_interactive := None;
  opt_bundlerName := None;
  opt_mode := None;
  opt_args := None;
  opt_hooks := None
|}.

(** * Properties *)

Section Properties.

Context {World BundlerArgs Hooks : Type}.
Context (env : @Env World BundlerArgs Hooks).

(** ** Runs of a sequence *)

Lemma bind_returned {A B : Type} (m : @Async World BundlerArgs Hooks A)
  (k : A -> Async B) w a w1 t1 :
  m w = (Returned a, w1, t1) ->
  bind m k w = (let '(r, w2, t2) := k a w1 in (r, w2, t1 ++ t2)).
Proof. intros Hm. unfold bind. rewrite Hm. reflexivity. Qed.

(** ** Reading the trace of a sequence *)

Lemma outcomes_app (t1 t2 : list (@Event BundlerArgs Hooks)) :
  outcomes (t1 ++ t2) = outcomes t1 ++ outcomes t2.
Proof.
  induction t1 as [|e t1 IH]; simpl; [reflexivity|].
  destruct (outcomeOf e); simpl; rewrite IH; reflexivity.
Qed.

Lemma posts_app (t1 t2 : list (@Event BundlerArgs Hooks)) :
  posts (t1 ++ t2) = posts t1 ++ posts t2.
Proof. apply filter_app. Qed.

Lemma reads_app (t1 t2 : list (@Event BundlerArgs Hooks)) :
  reads (t1 ++ t2) = reads t1 ++ reads t2.
Proof. apply filter_app. Qed.

(** ** The body of the upload loop *)

Lemma reportResult_run uploads file fileName result (w : World) :
  exists trace : list (@Event BundlerArgs Hooks),
    reportResult uploads file fileName result w
    = (Returned (pushed (reported result) uploads file), w, trace)
    /\ outcomes trace = [reported result]
    /\ posts trace = []
    /\ reads trace = [].
Proof.
  unfold reportResult, reported, pushed.
  destruct (success result).
  - destruct (truthy (response result)); eexists; repeat split; reflexivity.
  - destruct (Z.eqb (status result) 402);
      [eexists; repeat split; reflexivity|].
    destruct (Z.eqb (status result) 409);
      [eexists; repeat split; reflexivity|].
    destruct (Z.eqb (status result) 413);
      eexists; repeat split; reflexivity.
Qed.

Lemma uploadFile_run fullBase url l ca uploads file w :
  exists trace,
    uploadFile env fullBase url l ca uploads file w
    = (Returned (pushed (outcomeAt env fullBase url l ca file w) uploads file),
       worldAfter env fullBase url l ca file w, trace)
    /\ outcomes trace = [outcomeAt env fullBase url l ca file w]
    /\ reads trace = [EvReadBinary fullBase (path_relative env fullBase file)]
    /\ length (posts trace)
       = (if isFileUnreadable (outcomeAt env fullBase url l ca file w) then 0 else 1).
Proof.
  unfold uploadFile, outcomeAt, worldAfter, readBinary, postFile, call, log,
    progress, emit.
  unfold bind at 1 2. simpl.
  destruct (env_readBinary env fullBase (path_relative env fullBase file) w)
    as [[content|] w1].
  - unfold bind at 1 2 3. simpl.
    destruct (env_postFile env url (mode l) (apiKey l) content (fields l)
                           (headers l) ca (interactive l) w1) as [result w2].
    simpl.
    destruct (reportResult_run uploads file (path_relative env fullBase file)
                               result w2) as (tr & Hrun & Hout & Hposts & Hreads).
    rewrite Hrun. unfold bind, ret. simpl.
    eexists. split; [reflexivity|].
    repeat split.
    + simpl. rewrite outcomes_app, Hout. reflexivity.
    + simpl. rewrite reads_app, Hreads. reflexivity.
    + simpl. rewrite posts_app, Hposts. simpl.
      unfold reported.
      destruct (success result); [reflexivity|].
      repeat match goal with |- context [Z.eqb ?a ?b] => destruct (Z.eqb a b) end;
        reflexivity.
  - unfold bind, ret. simpl.
    eexists. repeat split; reflexivity.
Qed.

(** ** The upload loop *)

Lemma length_filter_all {A : Type} (p : A -> bool) (xs : list A) :
  Nat.eqb (length xs) (length (filter p xs)) = forallb p xs.
Proof.
  induction xs as [|x xs IH]; [reflexivity|].
  cbn [forallb filter]. destruct (p x); cbn [andb].
  - exact IH.
  - apply Nat.eqb_neq. pose proof (filter_length_le p xs).
    cbn [length]. lia.
Qed.

Lemma uploadFiles_run fullBase url l ca files :
  forall uploads w,
  exists uploads' w' trace,
    uploadFiles env fullBase url l ca uploads files w
    = (Returned uploads', w', trace)
    /\ length (outcomes trace) = length files
    /\ length uploads'
       = length uploads + length (filter isSuccess (outcomes trace))
    /\ reads trace
       = map (fun file => EvReadBinary fullBase (path_relative env fullBase file))
             files
    /\ length (posts trace)
         + length (filter isFileUnreadable (outcomes trace))
       = length files
    /\ outcomes trace = loopOutcomes env fullBase url l ca files w.
Proof.
  induction files as [|file rest IH]; intros uploads w.
  - exists uploads, w, []. simpl. repeat split; try reflexivity. lia.
  - destruct (uploadFile_run fullBase url l ca uploads file w)
      as (t1 & Hrun & Hout & Hreads & Hposts).
    destruct (IH (pushed (outcomeAt env fullBase url l ca file w) uploads file)
                 (worldAfter env fullBase url l ca file w))
      as (uploads' & w2 & t2 & Hrest & Hlen & Hups & Hreads2 & Hposts2 & Hsem).
    exists uploads', w2, (t1 ++ t2).
    split.
    { cbn [uploadFiles]. rewrite (bind_returned _ _ _ _ _ _ Hrun), Hrest.
      reflexivity. }
    rewrite outcomes_app, reads_app, posts_app, Hout, Hreads, Hreads2.
    rewrite !length_app, Hposts. cbn [app length filter map loopOutcomes].
    rewrite Hups, Hlen, <- Hsem. unfold pushed.
    destruct (outcomeAt env fullBase url l ca file w); cbn;
      rewrite ?length_app; cbn; repeat split; lia.
Qed.

(** The loop and the verdict: the run ends in success exactly when all the
    recorded outcomes are successes, and in [failedUploading_0064]
    otherwise; one outcome is recorded per file. *)
Lemma uploadAndReport_run fullBase url l ca files w :
  exists w' trace,
    uploadAndReport env fullBase url l ca files w
    = (if forallb isSuccess (outcomes trace)
       then Returned tt
       else Threw (Fatal failedUploading_0064 []),
       w', trace)
    /\ length (outcomes trace) = length files
    /\ reads trace
       = map (fun file => EvReadBinary fullBase (path_relative env fullBase file))
             files
    /\ length (posts trace)
         + length (filter isFileUnreadable (outcomes trace))
       = length files
    /\ outcomes trace = loopOutcomes env fullBase url l ca files w.
Proof.
  destruct (uploadFiles_run fullBase url l ca files [] w)
    as (uploads & w1 & t1 & Hrun & Hlen & Hups & Hreads & Hposts & Hsem).
  unfold uploadAndReport.
  set (info := @EvLog BundlerArgs Hooks generalInfo_0000
                 (ArgText ("Using feed service " ++ quoted url ++ "."))).
  assert (Hverdict :
            Nat.eqb (length files) (length uploads)
            = forallb isSuccess (outcomes t1)).
  { rewrite Hups, <- Hlen. apply length_filter_all. }
  destruct (forallb isSuccess (outcomes t1)) eqn:Hall.
  - exists w1, (info :: t1 ++ [EvLogDone "Pilet(s) published successfully!"]).
    split.
    { unfold bind at 1. cbn. rewrite (bind_returned _ _ _ _ _ _ Hrun), Hverdict.
      cbn. rewrite outcomes_app. cbn. rewrite app_nil_r, Hall. reflexivity. }
    change (info :: t1 ++ [EvLogDone "Pilet(s) published successfully!"])
      with ([info] ++ t1 ++ [EvLogDone "Pilet(s) published successfully!"]).
    rewrite !outcomes_app, !reads_app, !posts_app. cbn.
    rewrite !app_nil_r. repeat split; assumption.
  - exists w1, (info :: t1).
    split.
    { unfold bind at 1. cbn. rewrite (bind_returned _ _ _ _ _ _ Hrun), Hverdict.
      cbn. rewrite app_nil_r, Hall. reflexivity. }
    cbn. repeat split; assumption.
Qed.

(** ** [Promise.all] over a list *)

Lemma promiseAllMap_call {A B : Type}
  (ev : A -> @Event BundlerArgs Hooks) (g : A -> World -> B * World) xs :
  forall w,
  exists ys w',
    promiseAllMap (fun x => call (ev x) (g x)) xs w
    = (Returned ys, w', map ev xs)
    /\ answered g xs ys.
Proof.
  induction xs as [|x rest IH]; intros w.
  - exists [], w. split; [reflexivity|constructor].
  - destruct (g x w) as [y w1] eqn:Hg.
    destruct (IH w1) as (ys & w2 & Hrest & Hans).
    exists (y :: ys), w2. split.
    + cbn [promiseAllMap map]. unfold bind at 1, call at 1.
      rewrite Hg. unfold bind at 1. rewrite Hrest.
      unfold ret. cbn [app]. rewrite app_nil_r. reflexivity.
    + constructor; [exists w, w1; exact Hg|exact Hans].
Qed.

Lemma promiseAllMap_returns {A B : Type}
  (P : list (@Event BundlerArgs Hooks) -> Prop)
  (f : A -> @Async World BundlerArgs Hooks B) :
  P [] ->
  (forall t1 t2, P t1 -> P t2 -> P (t1 ++ t2)) ->
  (forall x w, exists y w' t, f x w = (Returned y, w', t) /\ P t) ->
  forall xs w,
  exists ys w' t,
    promiseAllMap f xs w = (Returned ys, w', t)
    /\ P t /\ length ys = length xs.
Proof.
  intros Hnil Happ Hf xs.
  induction xs as [|x rest IH]; intros w.
  - exists [], w, []. repeat split; [exact Hnil].
  - destruct (Hf x w) as (y & w1 & t1 & Hx & Ht1).
    destruct (IH w1) as (ys & w2 & t2 & Hrest & Ht2 & Hlen).
    exists (y :: ys), w2, (t1 ++ t2 ++ []). repeat split.
    + cbn [promiseAllMap]. rewrite (bind_returned _ _ _ _ _ _ Hx).
      rewrite (bind_returned _ _ _ _ _ _ Hrest). reflexivity.
    + rewrite app_nil_r. apply Happ; assumption.
    + cbn [length]. rewrite Hlen. reflexivity.
Qed.

(** [reduce] with spread is concatenation. *)
Lemma fold_left_app_concat (allFiles : list (list string)) :
  forall result,
    fold_left (fun result files => result ++ files) allFiles result
    = result ++ concat allFiles.
Proof.
  induction allFiles as [|files rest IH]; intros result; cbn [fold_left concat].
  - rewrite app_nil_r. reflexivity.
  - rewrite IH, app_assoc. reflexivity.
Qed.

Lemma flatten_concat (allFiles : list (list string)) :
  flatten allFiles = concat allFiles.
Proof. unfold flatten. apply fold_left_app_concat. Qed.

(** ** What comes before the upload loop is silent *)

Lemma silent_nil : @silent BundlerArgs Hooks [].
Proof. split; reflexivity. Qed.

Lemma silent_app (t1 t2 : list (@Event BundlerArgs Hooks)) : silent t1 -> silent t2 -> silent (t1 ++ t2).
Proof.
  intros [Ho1 Hp1] [Ho2 Hp2]. split.
  - rewrite outcomes_app, Ho1, Ho2. reflexivity.
  - rewrite posts_app, Hp1, Hp2. reflexivity.
Qed.

Lemma silent_map {A : Type} (ev : A -> @Event BundlerArgs Hooks) xs :
  (forall x, silent [ev x]) -> silent (map ev xs).
Proof.
  intros Hev. induction xs as [|x rest IH]; [apply silent_nil|].
  change (map ev (x :: rest)) with ([ev x] ++ map ev rest).
  apply silent_app; [apply Hev|exact IH].
Qed.

(** The staged tasks of a fresh build always return, and their trace is
    made of the traces of the three parts. *)
Lemma freshTasks_return (P : list (@Event BundlerArgs Hooks) -> Prop)
  fresh originalSchemaVersion logLevel bundlerName args hooks :
  P [] ->
  (forall t1 t2, P t1 -> P t2 -> P (t1 ++ t2)) ->
  (forall a,
      P [EvProgress "Triggering pilet build ..." []; EvTriggerBuildPilet a]) ->
  (forall message r,
      P [EvLog generalDebug_0003 message;
         EvProgress "Triggering pilet pack ..." [];
         EvCreatePiletPackage r "." "."]) ->
  (forall message, P [EvLog generalDebug_0003 message]) ->
  forall entries (w : World),
  exists files w' t,
    promiseAllStaged
      (buildStage env fresh originalSchemaVersion logLevel bundlerName args
                  hooks)
      (packStage env) doneStage entries w
    = (Returned files, w', t)
    /\ P t /\ length files = length entries.
Proof.
  intros Hnil Happ Hbuild Hpack Hdone entries w.
  destruct (promiseAllMap_returns P
              (buildStage env fresh originalSchemaVersion logLevel bundlerName
                          args hooks) Hnil Happ) with (xs := entries) (w := w)
    as (builds & w1 & t1 & Hrun1 & Ht1 & Hlen1).
  { intros entry w0.
    unfold buildStage, triggerBuildPilet, call, progress, emit, bind.
    destruct (env_triggerBuildPilet env _ w0) as [built w0'].
    exists built, w0'. eexists. split; [reflexivity|]. apply Hbuild. }
  destruct (promiseAllMap_returns P (packStage env) Hnil Happ)
    with (xs := builds) (w := w1)
    as (packs & w2 & t2 & Hrun2 & Ht2 & Hlen2).
  { intros built w0.
    unfold packStage, createPiletPackage, call, log, progress, emit, bind, ret.
    destruct (env_createPiletPackage env (root built) "." "." w0)
      as [file w0'].
    eexists _, w0'. eexists. split; [reflexivity|]. apply Hpack. }
  destruct (promiseAllMap_returns P (@doneStage World BundlerArgs Hooks)
              Hnil Happ)
    with (xs := packs) (w := w2)
    as (files & w3 & t3 & Hrun3 & Ht3 & Hlen3).
  { intros [name file] w0. unfold doneStage, log, emit, bind, ret.
    exists file, w0. eexists. split; [reflexivity|]. apply Hdone. }
  exists files, w3, (t1 ++ t2 ++ t3). split.
  - unfold promiseAllStaged.
    rewrite (bind_returned _ _ _ _ _ _ Hrun1).
    rewrite (bind_returned _ _ _ _ _ _ Hrun2). rewrite Hrun3. reflexivity.
  - split; [apply Happ; [exact Ht1|apply Happ; assumption]|].
    congruence.
Qed.

Lemma getFiles_silent baseDir sources from fresh originalSchemaVersion logLevel
  bundlerName args ca hooks w :
  silent (snd (getFiles env baseDir sources from fresh originalSchemaVersion
                        logLevel bundlerName args ca hooks w)).
Proof.
  unfold getFiles. destruct fresh.
  - unfold bind at 1. cbn [log emit].
    unfold bind at 1, matchAnyPilet at 1, call at 1.
    destruct (env_matchAnyPilet env baseDir sources w) as [allEntries w1].
    destruct allEntries as [|entry rest].
    + cbn. split; reflexivity.
    + unfold bind at 1. cbn [length Nat.eqb ret].
      destruct (freshTasks_return silent true originalSchemaVersion logLevel
                  bundlerName args hooks silent_nil silent_app
                  (fun _ => conj eq_refl eq_refl)
                  (fun _ _ => conj eq_refl eq_refl)
                  (fun _ => conj eq_refl eq_refl)
                  (entry :: rest) w1) as (ys & w2 & t & Hrun & Hsilent & _).
      rewrite Hrun. cbn [snd app].
      apply (silent_app [_; _] t); [split; reflexivity|exact Hsilent].
  - unfold bind at 1. cbn [log emit].
    destruct from.
    + unfold bind at 1. cbn [log emit]. unfold matchFiles.
      destruct (promiseAllMap_call (EvMatchFiles baseDir)
                  (env_matchFiles env baseDir) sources w)
        as (ys & w1 & Hrun & _).
      rewrite (bind_returned _ _ _ _ _ _ Hrun). cbn [ret snd app].
      apply (silent_app [_; _]); [split; reflexivity|].
      rewrite app_nil_r. apply silent_map. intros x. split; reflexivity.
    + unfold bind at 1. cbn [log emit]. unfold downloadFile.
      destruct (promiseAllMap_call (fun s => EvDownloadFile s ca)
                  (fun s => env_downloadFile env s ca) sources w)
        as (ys & w1 & Hrun & _).
      rewrite (bind_returned _ _ _ _ _ _ Hrun). cbn [ret snd app].
      apply (silent_app [_; _]); [split; reflexivity|].
      rewrite app_nil_r. apply silent_map. intros x. split; reflexivity.
    + unfold bind at 1. cbn [log emit]. unfold findNpmTarball, downloadFile.
      destruct (promiseAllMap_call EvFindNpmTarball
                  (env_findNpmTarball env) sources w)
        as (urls & w1 & Hlook & _).
      rewrite (bind_returned _ _ _ _ _ _ Hlook).
      unfold bind at 1. cbn [log emit].
      destruct (promiseAllMap_call (fun u => EvDownloadFile u ca)
                  (fun u => env_downloadFile env u ca) urls w1)
        as (ys & w2 & Hdown & _).
      rewrite (bind_returned _ _ _ _ _ _ Hdown). cbn [ret snd app].
      apply (silent_app [_; _]); [split; reflexivity|].
      apply silent_app; [apply silent_map; intros x; split; reflexivity|].
      apply (silent_app [_]); [split; reflexivity|].
      rewrite app_nil_r. apply silent_map. intros x. split; reflexivity.
Qed.

Lemma readCertificate_silent cert w :
  silent (snd (readCertificate env cert w)).
Proof.
  unfold readCertificate, checkExists, readBinary, call, log, emit, bind, ret,
    throw.
  destruct (env_checkExists env cert w) as [[|] w1].
  - destruct cert as [c|]; [|split; reflexivity].
    destruct (env_readBinary env (path_dirname env c) (path_basename env c) w1).
    split; reflexivity.
  - split; reflexivity.
Qed.

(** ** [publishPilet] by its stages *)

Lemma publishFiles_stages fullBase u l ca w :
  publishFiles env fullBase u l ca w
  = match getFiles env fullBase (toArray (source l)) (from l) (fresh l)
                   (schemaVersion l) (logLevel l) (bundlerName l) (args l)
                   ca (hooks l) w with
    | (Returned [], w2, t2) =>
        (Threw (Fatal missingPiletTarball_0061 (toArray (source l))), w2,
         EvLog generalDebug_0003 (ArgText "Getting the tgz files ...")
         :: t2
         ++ [EvLog generalDebug_0003 (ArgText "Received available tgz files.")])
    | (Returned files, w2, t2) =>
        let '(r, w3, t3) := uploadAndReport env fullBase u l ca files w2 in
        (r, w3,
         EvLog generalDebug_0003 (ArgText "Getting the tgz files ...")
         :: t2
         ++ EvLog generalDebug_0003 (ArgText "Received available tgz files.")
         :: t3)
    | (Threw e, w2, t2) =>
        (Threw e, w2,
         EvLog generalDebug_0003 (ArgText "Getting the tgz files ...") :: t2)
    end.
Proof.
  unfold publishFiles. unfold bind at 1. cbn [log emit].
  unfold bind at 1.
  destruct (getFiles env fullBase (toArray (source l)) (from l) (fresh l)
                     (schemaVersion l) (logLevel l) (bundlerName l) (args l)
                     ca (hooks l) w) as [[[files|e] w2] t2]; [|reflexivity].
  destruct files as [|file rest].
  - reflexivity.
  - unfold bind at 1. cbn [log emit]. unfold bind at 1.
    cbn [length Nat.eqb ret].
    destruct (uploadAndReport env fullBase u l ca (file :: rest) w2)
      as [[r w3] t3].
    reflexivity.
Qed.

Lemma publishPilet_stages baseDir options w :
  let l := destructure env options in
  let fullBase :=
    path_resolve env (process_cwd env) (withDefault baseDir (process_cwd env)) in
  let start :=
    [EvSetLogLevel (logLevel l); EvProgress "Reading configuration ..." []] in
  publishPilet env baseDir options w
  = match url l with
    | Some u =>
        if truthy (url l) then
          match readCertificate env (cert l) w with
          | (Returned ca, w1, t1) =>
              let '(r, w2, t2) := publishFiles env fullBase u l ca w1 in
              (r, w2, start ++ t1 ++ t2)
          | (Threw e, w1, t1) => (Threw e, w1, start ++ t1)
          end
        else (Threw (Fatal missingPiletFeedUrl_0060 []), w, start)
    | None => (Threw (Fatal missingPiletFeedUrl_0060 []), w, start)
    end.
Proof.
  intros l fullBase start. unfold publishPilet.
  fold l. fold fullBase.
  unfold bind at 1. cbn [setLogLevel emit].
  unfold bind at 1. cbn [progress emit].
  unfold bind at 1, failIfNot.
  destruct (url l) as [u|]; [|reflexivity].
  destruct (truthy (Some u)); [|reflexivity].
  cbn [ret]. unfold bind at 1.
  destruct (readCertificate env (cert l) w) as [[[ca|e] w1] t1]; [|reflexivity].
  destruct (publishFiles env fullBase u l ca w1) as [[r w2] t2].
  reflexivity.
Qed.

Lemma truthy_some u : u <> EmptyString -> truthy (Some u) = true.
Proof.
  intros Hu. unfold truthy. destruct (String.eqb_spec u EmptyString);
    [contradiction|reflexivity].
Qed.

(** ** The claims about [publishPilet] *)

(** C4.  When the feed URL that the options and the configuration give is
    undefined or empty, [publishPilet] throws [missingPiletFeedUrl_0060]
    right after the two logger calls that open the run: the world is
    untouched and the trace holds no call of a helper, so no certificate
    was looked for, no artifact resolved or read, and nothing posted. *)
Theorem C4_missing_feed_url_is_fatal baseDir options (w : World) :
  url (destructure env options) = None
  \/ url (destructure env options) = Some EmptyString ->
  exists trace,
    publishPilet env baseDir options w
    = (Threw (Fatal missingPiletFeedUrl_0060 []), w, trace)
    /\ trace = [EvSetLogLevel (logLevel (destructure env options));
                EvProgress "Reading configuration ..." []]
    /\ helperCalls trace = []
    /\ posts trace = [].
Proof.
  intros Hurl. eexists. split; [|repeat split; reflexivity].
  rewrite publishPilet_stages. cbv zeta.
  destruct Hurl as [Hurl|Hurl]; rewrite Hurl; reflexivity.
Qed.

(** C7.  When the run gets to the resolution of the files and this yields
    the empty list, [publishPilet] throws [missingPiletTarball_0061] with
    the sources as argument, having posted nothing and recorded no outcome.
    And whenever [publishPilet] returns, its trace holds a call of
    [postFile] and a recorded success: no run ends well without an
    upload. *)
Theorem C7_no_artifacts_is_fatal :
  (forall baseDir options (w : World) u ca w1 t1 w2 t2,
      let l := destructure env options in
      let fullBase :=
        path_resolve env (process_cwd env)
                     (withDefault baseDir (process_cwd env)) in
      url l = Some u ->
      u <> EmptyString ->
      readCertificate env (cert l) w = (Returned ca, w1, t1) ->
      getFiles env fullBase (toArray (source l)) (from l) (fresh l)
               (schemaVersion l) (logLevel l) (bundlerName l) (args l) ca
               (hooks l) w1
      = (Returned [], w2, t2) ->
      exists trace,
        publishPilet env baseDir options w
        = (Threw (Fatal missingPiletTarball_0061 (toArray (source l))),
           w2, trace)
        /\ posts trace = []
        /\ outcomes trace = [])
  /\ (forall baseDir options (w : World) w' trace,
        publishPilet env baseDir options w = (Returned tt, w', trace) ->
        posts trace <> [] /\ In Success (outcomes trace)).
Proof.
  split.
  - intros baseDir options w u ca w1 t1 w2 t2 l fullBase Hurl Hu Hcert Hfiles.
    pose proof (readCertificate_silent (cert l) w) as [Ho1 Hp1].
    pose proof (getFiles_silent fullBase (toArray (source l)) (from l)
                  (fresh l) (schemaVersion l) (logLevel l) (bundlerName l)
                  (args l) ca (hooks l) w1) as [Ho2 Hp2].
    rewrite Hcert in Ho1, Hp1. rewrite Hfiles in Ho2, Hp2. cbn [snd] in *.
    eexists. split.
    + rewrite publishPilet_stages. cbv zeta. fold l. fold fullBase.
      rewrite Hurl, (truthy_some u Hu), Hcert, publishFiles_stages, Hfiles.
      reflexivity.
    + split.
      * rewrite !posts_app, Hp1.
        change (?e :: t2 ++ ?t) with ([e] ++ t2 ++ t).
        rewrite !posts_app, Hp2. reflexivity.
      * rewrite !outcomes_app, Ho1.
        change (?e :: t2 ++ ?t) with ([e] ++ t2 ++ t).
        rewrite !outcomes_app, Ho2. reflexivity.
  - intros baseDir options w w' trace Hrun.
    rewrite publishPilet_stages in Hrun. cbv zeta in Hrun.
    set (l := destructure env options) in *.
    set (fullBase := path_resolve env (process_cwd env)
                       (withDefault baseDir (process_cwd env))) in *.
    destruct (url l) as [u|]; [|discriminate].
    destruct (truthy (Some u)); [|discriminate].
    pose proof (readCertificate_silent (cert l) w) as [Ho1 Hp1].
    destruct (readCertificate env (cert l) w) as [[[ca|e] w1] t1];
      [|discriminate].
    rewrite publishFiles_stages in Hrun.
    pose proof (getFiles_silent fullBase (toArray (source l)) (from l)
                  (fresh l) (schemaVersion l) (logLevel l) (bundlerName l)
                  (args l) ca (hooks l) w1) as [Ho2 Hp2].
    destruct (getFiles env fullBase (toArray (source l)) (from l) (fresh l)
                       (schemaVersion l) (logLevel l) (bundlerName l) (args l)
                       ca (hooks l) w1) as [[[files|e] w2] t2];
      [|discriminate].
    destruct files as [|file rest]; [discriminate|].
    destruct (uploadAndReport_run fullBase u l ca (file :: rest) w2)
      as (w3 & t3 & Hup & Hlen & _ & Hposts & _).
    rewrite Hup in Hrun. cbn [snd] in *.
    destruct (forallb isSuccess (outcomes t3)) eqn:Hall; [|discriminate].
    injection Hrun as _ Htrace. subst trace.
    match goal with
    | |- context [?a :: ?b :: t1 ++ ?rest] =>
        change (a :: b :: t1 ++ rest) with ([a; b] ++ t1 ++ rest)
    end.
    assert (Hnone : filter isFileUnreadable (outcomes t3) = []).
    { clear - Hall. induction (outcomes t3) as [|c cs IH]; [reflexivity|].
      cbn [forallb] in Hall. apply andb_prop in Hall as [Hc Hcs].
      destruct c; try discriminate. cbn. apply IH, Hcs. }
    rewrite Hnone in Hposts. cbn [length] in Hposts, Hlen.
    split.
    + rewrite !posts_app, Hp1.
      change (?e :: t2 ++ ?t) with ([e] ++ t2 ++ t).
      rewrite !posts_app, Hp2.
      change (?e :: t3) with ([e] ++ t3).
      rewrite posts_app. cbn.
      destruct (posts t3); [cbn in Hposts; lia|discriminate].
    + rewrite !outcomes_app, Ho1.
      change (?e :: t2 ++ ?t) with ([e] ++ t2 ++ t).
      rewrite !outcomes_app, Ho2.
      change (?e :: t3) with ([e] ++ t3).
      rewrite outcomes_app. cbn.
      destruct (outcomes t3) as [|c cs]; [discriminate|].
      cbn [forallb] in Hall. apply andb_prop in Hall as [Hc _].
      destruct c; try discriminate. left. reflexivity.
Qed.

Lemma all_success (cs : list Classification) :
  forallb isSuccess cs = true <-> Forall (fun c => c = Success) cs.
Proof.
  induction cs as [|c cs IH]; cbn [forallb].
  - split; [constructor|reflexivity].
  - rewrite andb_true_iff, IH. split.
    + intros [Hc Hcs]. constructor; [destruct c; try discriminate; reflexivity|].
      exact Hcs.
    + intros H. inversion H; subst. split; [reflexivity|assumption].
Qed.

(** A run that gets to the loop with a file to upload: what it records is
    what the loop records. *)
Lemma publishPilet_reaches_loop baseDir options (w : World) u ca w1 t1
  files w2 t2 :
  let l := destructure env options in
  let fullBase :=
    path_resolve env (process_cwd env) (withDefault baseDir (process_cwd env)) in
  url l = Some u ->
  u <> EmptyString ->
  readCertificate env (cert l) w = (Returned ca, w1, t1) ->
  getFiles env fullBase (toArray (source l)) (from l) (fresh l)
           (schemaVersion l) (logLevel l) (bundlerName l) (args l) ca
           (hooks l) w1
  = (Returned files, w2, t2) ->
  files <> [] ->
  exists r w3 t3 trace,
    uploadAndReport env fullBase u l ca files w2 = (r, w3, t3)
    /\ publishPilet env baseDir options w = (r, w3, trace)
    /\ outcomes trace = outcomes t3
    /\ posts trace = posts t3.
Proof.
  intros l fullBase Hurl Hu Hcert Hfiles Hne.
  pose proof (readCertificate_silent (cert l) w) as [Ho1 Hp1].
  pose proof (getFiles_silent fullBase (toArray (source l)) (from l)
                (fresh l) (schemaVersion l) (logLevel l) (bundlerName l)
                (args l) ca (hooks l) w1) as [Ho2 Hp2].
  rewrite Hcert in Ho1, Hp1. rewrite Hfiles in Ho2, Hp2. cbn [snd] in *.
  destruct (uploadAndReport env fullBase u l ca files w2) as [[r w3] t3] eqn:Hup.
  exists r, w3, t3. eexists. split; [reflexivity|]. split.
  - rewrite publishPilet_stages. cbv zeta. fold l. fold fullBase.
    rewrite Hurl, (truthy_some u Hu), Hcert, publishFiles_stages, Hfiles.
    destruct files as [|file rest]; [contradiction|].
    rewrite Hup. reflexivity.
  - split.
    + rewrite !outcomes_app, Ho1.
      change (?e :: t2 ++ ?e' :: t3) with ([e] ++ t2 ++ [e'] ++ t3).
      rewrite !outcomes_app, Ho2. reflexivity.
    + rewrite !posts_app, Hp1.
      change (?e :: t2 ++ ?e' :: t3) with ([e] ++ t2 ++ [e'] ++ t3).
      rewrite !posts_app, Hp2. reflexivity.
Qed.

(** C1, as amended.  When the resolution yields a list of files that is not
    empty, [publishPilet] records the outcomes of the files, one per file
    and in their order, and returns exactly when all of them are successes;
    otherwise, be it for a single failure, it throws
    [failedUploading_0064], with all the outcomes recorded. *)
Theorem C1_verdict_of_a_nonempty_batch baseDir options (w : World) u ca w1 t1
  files w2 t2 :
  let l := destructure env options in
  let fullBase :=
    path_resolve env (process_cwd env) (withDefault baseDir (process_cwd env)) in
  url l = Some u ->
  u <> EmptyString ->
  readCertificate env (cert l) w = (Returned ca, w1, t1) ->
  getFiles env fullBase (toArray (source l)) (from l) (fresh l)
           (schemaVersion l) (logLevel l) (bundlerName l) (args l) ca
           (hooks l) w1
  = (Returned files, w2, t2) ->
  files <> [] ->
  exists r w' trace,
    publishPilet env baseDir options w = (r, w', trace)
    /\ outcomes trace = loopOutcomes env fullBase u l ca files w2
    /\ length (outcomes trace) = length files
    /\ (r = Returned tt <-> Forall (fun c => c = Success) (outcomes trace))
    /\ (r <> Returned tt -> r = Threw (Fatal failedUploading_0064 [])).
Proof.
  intros l fullBase Hurl Hu Hcert Hfiles Hne.
  destruct (publishPilet_reaches_loop baseDir options w u ca w1 t1 files w2 t2
              Hurl Hu Hcert Hfiles Hne)
    as (r & w3 & t3 & trace & Hup & Hrun & Hout & _).
  destruct (uploadAndReport_run fullBase u l ca files w2)
    as (w3' & t3' & Hup' & Hlen & _ & _ & Hsem).
  fold l in Hup. fold fullBase in Hup. rewrite Hup in Hup'.
  injection Hup' as Hr Hw Ht. subst t3' w3'.
  exists r, w3, trace. split; [exact Hrun|].
  rewrite Hout. split; [exact Hsem|]. split; [exact Hlen|].
  rewrite <- all_success.
  destruct (forallb isSuccess (outcomes t3)); subst r.
  - split; [split; reflexivity|]. intros H. contradiction H. reflexivity.
  - split; [split; discriminate|]. intros _. reflexivity.
Qed.

(** C3.  The upload loop never throws.  It reads every file of the list, in
    order, and records one outcome per file, whatever the outcomes are: the
    outcome of each turn in the world that the turns before it left.  Every
    file is either posted or recorded as unreadable.  A file that
    [readBinary] cannot read is recorded with [failedToRead_0063] in a turn
    that calls [postFile] not at all and leaves [successfulUploads] as it
    was. *)
Theorem C3_loop_attempts_every_artifact fullBase url l ca files uploads
  (w : World) :
  (exists uploads' w' trace,
      uploadFiles env fullBase url l ca uploads files w
      = (Returned uploads', w', trace)
      /\ reads trace
         = map (fun file =>
                  EvReadBinary fullBase (path_relative env fullBase file))
               files
      /\ length (outcomes trace) = length files
      /\ length (posts trace)
           + length (filter isFileUnreadable (outcomes trace))
         = length files
      /\ outcomes trace = loopOutcomes env fullBase url l ca files w)
  /\ (forall file w0 w1,
        env_readBinary env fullBase (path_relative env fullBase file) w0
        = (None, w1) ->
        uploadFile env fullBase url l ca uploads file w0
        = (Returned uploads, w1,
           [EvLog generalDebug_0003 (ArgText "Reading the file for upload ...");
            EvReadBinary fullBase (path_relative env fullBase file);
            EvLog failedToRead_0063
                  (ArgText (path_relative env fullBase file));
            EvLog generalDebug_0003 (ArgText "Finished uploading the file.")])).
Proof.
  split.
  - destruct (uploadFiles_run fullBase url l ca files uploads w)
      as (uploads' & w' & trace & Hrun & Hlen & _ & Hreads & Hposts & Hsem).
    exists uploads', w', trace. repeat split; assumption.
  - intros file w0 w1 Hread.
    unfold uploadFile, readBinary, call, log, emit.
    unfold bind at 1 2. cbn. rewrite Hread. reflexivity.
Qed.

(** C5, as amended.  When the file that [cert] names does not exist,
    nothing is read for it and nothing is thrown on its account: [ca] stays
    undefined.  The run throws [missingPiletFeedUrl_0060] when the feed URL
    is undefined or empty, and otherwise goes on to resolve and upload the
    files without a certificate. *)
Theorem C5_absent_certificate_is_skipped baseDir options (w : World) w1 :
  let l := destructure env options in
  let fullBase :=
    path_resolve env (process_cwd env) (withDefault baseDir (process_cwd env)) in
  env_checkExists env (cert l) w = (false, w1) ->
  readCertificate env (cert l) w
  = (Returned None, w1,
     [EvLog generalDebug_0003 (ArgText "Checking if certificate exists.");
      EvCheckExists (cert l)])
  /\ publishPilet env baseDir options w
     = match url l with
       | Some u =>
           if truthy (url l)
           then
             let '(r, w', trace) := publishFiles env fullBase u l None w1 in
             (r, w',
              [EvSetLogLevel (logLevel l);
               EvProgress "Reading configuration ..." [];
               EvLog generalDebug_0003
                     (ArgText "Checking if certificate exists.");
               EvCheckExists (cert l)] ++ trace)
           else
             (Threw (Fatal missingPiletFeedUrl_0060 []), w,
              [EvSetLogLevel (logLevel l);
               EvProgress "Reading configuration ..." []])
       | None =>
           (Threw (Fatal missingPiletFeedUrl_0060 []), w,
            [EvSetLogLevel (logLevel l);
             EvProgress "Reading configuration ..." []])
       end.
Proof.
  intros l fullBase Hexists.
  assert (Hcert :
            readCertificate env (cert l) w
            = (Returned None, w1,
               [EvLog generalDebug_0003
                      (ArgText "Checking if certificate exists.");
                EvCheckExists (cert l)])).
  { unfold readCertificate, checkExists, call, log, emit, bind, ret.
    rewrite Hexists. reflexivity. }
  split; [exact Hcert|].
  rewrite publishPilet_stages. cbv zeta. fold l. fold fullBase.
  destruct (url l) as [u|]; [|reflexivity].
  destruct (truthy (Some u)); [|reflexivity].
  rewrite Hcert.
  destruct (publishFiles env fullBase u l None w1) as [[r w'] trace].
  reflexivity.
Qed.

(** C2.  For a file that can be read, what the loop records is a function
    of the HTTP status of the result of [postFile], the one of the
    specification's table: success for 2xx, payment required for 402,
    version conflict for 409, payload too large for 413 and the generic
    failure for any other status; the file counts as uploaded exactly for
    2xx.  [publishPilet] branches on the [success] flag first and on the
    status of an unsuccessful result then, so this rests on the contract of
    [postFile] that the flag is set exactly for 2xx. *)
Theorem C2_classification_by_status fullBase url l ca uploads file
  (w : World) content w1 result w2 :
  env_readBinary env fullBase (path_relative env fullBase file) w
  = (Some content, w1) ->
  env_postFile env url (mode l) (apiKey l) content (fields l) (headers l) ca
               (interactive l) w1
  = (result, w2) ->
  postFileContract result ->
  reported result = spec_classification (status result)
  /\ exists trace,
      uploadFile env fullBase url l ca uploads file w
      = (Returned (pushed (spec_classification (status result)) uploads file),
         w2, trace)
      /\ outcomes trace = [spec_classification (status result)].
Proof.
  intros Hread Hpost Hcontract.
  assert (Hsame : reported result = spec_classification (status result)).
  { unfold reported, spec_classification. rewrite Hcontract.
    destruct (is2xx (status result)); reflexivity. }
  split; [exact Hsame|].
  destruct (uploadFile_run fullBase url l ca uploads file w)
    as (trace & Hrun & Hout & _).
  assert (Hat : outcomeAt env fullBase url l ca file w = reported result).
  { unfold outcomeAt. rewrite Hread, Hpost. reflexivity. }
  assert (Hw : worldAfter env fullBase url l ca file w = w2).
  { unfold worldAfter. rewrite Hread, Hpost. reflexivity. }
  rewrite Hat, Hsame in Hrun, Hout. rewrite Hw in Hrun.
  exists trace. split; assumption.
Qed.

(** C6.  With [fresh] set, when [matchAnyPilet] finds no entry module,
    [getFiles] throws [entryFileMissing_0077] whatever its other arguments
    are; the only helper called is [matchAnyPilet], so no build was
    triggered. *)
Theorem C6_entry_file_missing baseDir sources from originalSchemaVersion
  logLevel bundlerName args ca hooks (w w1 : World) :
  env_matchAnyPilet env baseDir sources w = ([], w1) ->
  exists trace,
    getFiles env baseDir sources from true originalSchemaVersion logLevel
             bundlerName args ca hooks w
    = (Threw (Fatal entryFileMissing_0077 []), w1, trace)
    /\ helperCalls trace = [EvMatchAnyPilet baseDir sources]
    /\ filter isTriggerBuildPilet trace = [].
Proof.
  intros Hmatch. eexists. split.
  - unfold getFiles. unfold bind at 1. cbn [log emit].
    unfold bind at 1, matchAnyPilet at 1, call at 1. rewrite Hmatch.
    reflexivity.
  - split; reflexivity.
Qed.

Lemma filter_map_all {A : Type} (p : @Event BundlerArgs Hooks -> bool)
  (ev : A -> @Event BundlerArgs Hooks) (xs : list A) :
  (forall x, p (ev x) = true) -> filter p (map ev xs) = map ev xs.
Proof.
  intros Hp. induction xs as [|x rest IH]; [reflexivity|].
  cbn [map filter]. rewrite Hp, IH. reflexivity.
Qed.

Lemma filter_map_none {A : Type} (p : @Event BundlerArgs Hooks -> bool)
  (ev : A -> @Event BundlerArgs Hooks) (xs : list A) :
  (forall x, p (ev x) = false) -> filter p (map ev xs) = [].
Proof.
  intros Hp. induction xs as [|x rest IH]; [reflexivity|].
  cbn [map filter]. rewrite Hp. exact IH.
Qed.

(** C8.  From [local], without [fresh], [getFiles] calls [matchFiles] once
    per source, in the order of the sources, and returns the concatenation
    of what the calls gave, in that order and each as it was given.  When
    what a pattern matches does not depend on the world, this is the
    concatenation of the matches of the sources. *)
Theorem C8_local_files_in_source_order baseDir sources originalSchemaVersion
  logLevel bundlerName args ca hooks (w : World) :
  exists matched w' trace,
    getFiles env baseDir sources local false originalSchemaVersion logLevel
             bundlerName args ca hooks w
    = (Returned (concat matched), w', trace)
    /\ answered (env_matchFiles env baseDir) sources matched
    /\ helperCalls trace = map (EvMatchFiles baseDir) sources
    /\ (forall glob : string -> list string,
          (forall s w0, fst (env_matchFiles env baseDir s w0) = glob s) ->
          matched = map glob sources).
Proof.
  destruct (promiseAllMap_call (EvMatchFiles baseDir)
              (env_matchFiles env baseDir) sources w)
    as (matched & w' & Hrun & Hans).
  exists matched, w'. eexists. split.
  - unfold getFiles. unfold bind at 1. cbn [log emit].
    unfold bind at 1. cbn [log emit]. unfold matchFiles.
    rewrite (bind_returned _ _ _ _ _ _ Hrun).
    unfold ret. rewrite flatten_concat. reflexivity.
  - split; [exact Hans|]. split.
    + rewrite app_nil_r. cbn [app].
      unfold helperCalls. cbn [filter isHelperCall].
      apply filter_map_all. reflexivity.
    + intros glob Hglob. clear Hrun.
      induction Hans as [|s m rest ms (w0 & w1 & Hs) _ IH]; [reflexivity|].
      cbn [map]. rewrite IH. specialize (Hglob s w0). rewrite Hs in Hglob.
      cbn [fst] in Hglob. rewrite Hglob. reflexivity.
Qed.


(** ** The source option *)

Lemma uploadFiles_sameButSource fullBase u l1 l2 ca files :
  sameButSource l1 l2 ->
  forall uploads (w : World),
    uploadFiles env fullBase u l1 ca uploads files w
    = uploadFiles env fullBase u l2 ca uploads files w.
Proof.
  intros (_ & _ & Hkey & _ & _ & _ & _ & Hfields & Hheaders & Hmode
          & Hinteractive & _).
  induction files as [|file rest IH]; intros uploads w; [reflexivity|].
  cbn [uploadFiles]. unfold bind.
  replace (uploadFile env fullBase u l1 ca uploads file w)
    with (uploadFile env fullBase u l2 ca uploads file w)
    by (unfold uploadFile;
        rewrite Hkey, Hfields, Hheaders, Hmode, Hinteractive; reflexivity).
  destruct (uploadFile env fullBase u l2 ca uploads file w)
    as [[[uploads'|e] w1] t1]; [|reflexivity].
  rewrite IH. reflexivity.
Qed.

Lemma publishFiles_sameButSource fullBase u l1 l2 ca (w : World) :
  sameButSource l1 l2 ->
  toArray (source l1) = toArray (source l2) ->
  publishFiles env fullBase u l1 ca w = publishFiles env fullBase u l2 ca w.
Proof.
  intros Hsame Hsources. rewrite !publishFiles_stages, Hsources.
  pose proof Hsame as (Hfresh & _ & _ & Hlevel & Hfrom & Hschema & _ & _ & _
                       & _ & _ & Hargs & Hhooks & Hbundler).
  rewrite Hfresh, Hlevel, Hfrom, Hschema, Hargs, Hhooks, Hbundler.
  destruct (getFiles env fullBase (toArray (source l2)) (from l2) (fresh l2)
                     (schemaVersion l2) (logLevel l2) (bundlerName l2)
                     (args l2) ca (hooks l2) w) as [[[files|e] w2] t2];
    [|reflexivity].
  destruct files as [|file rest]; [reflexivity|].
  unfold uploadAndReport, bind. cbn [log emit].
  rewrite (uploadFiles_sameButSource fullBase u l1 l2 ca (file :: rest) Hsame).
  reflexivity.
Qed.

Lemma publishPilet_sameButSource baseDir options1 options2 (w : World) :
  sameButSource (destructure env options1) (destructure env options2) ->
  toArray (source (destructure env options1))
  = toArray (source (destructure env options2)) ->
  publishPilet env baseDir options1 w = publishPilet env baseDir options2 w.
Proof.
  intros Hsame Hsources. rewrite !publishPilet_stages. cbv zeta.
  pose proof Hsame as (_ & Hurl & _ & Hlevel & _ & _ & Hcert & _).
  rewrite Hurl, Hlevel, Hcert.
  destruct (url (destructure env options2)) as [u|]; [|reflexivity].
  destruct (truthy (Some u)); [|reflexivity].
  destruct (readCertificate env (cert (destructure env options2)) w)
    as [[[ca|e] w1] t1]; [|reflexivity].
  rewrite (publishFiles_sameButSource _ u _ _ ca w1 Hsame Hsources).
  reflexivity.
Qed.

(** C10.  Without a [source] option the source is ['./src/index'] when
    [fresh] (the option, false by default) is set and ['*.tgz'] otherwise,
    and a run without the option is the run with that source.  A source
    that is one string gives the sources that the list of that one string
    gives, and the two runs are the same. *)
Theorem C10_source_default_and_scalar baseDir options s (w : World) :
  fresh (destructure env options) = withDefault (opt_fresh options) false
  /\ source (destructure env (withSource options None))
     = inl (if fresh (destructure env options)
            then "./src/index" else "*.tgz")
  /\ publishPilet env baseDir (withSource options None) w
     = publishPilet env baseDir
         (withSource options
            (Some (inl (if fresh (destructure env options)
                        then "./src/index" else "*.tgz")))) w
  /\ toArray (source (destructure env (withSource options (Some (inl s)))))
     = [s]
  /\ toArray (source (destructure env (withSource options (Some (inr [s])))))
     = [s]
  /\ publishPilet env baseDir (withSource options (Some (inl s))) w
     = publishPilet env baseDir (withSource options (Some (inr [s]))) w.
Proof.
  split; [reflexivity|]. split; [reflexivity|].
  split; [apply publishPilet_sameButSource;
          [repeat split; reflexivity|reflexivity]|].
  split; [reflexivity|]. split; [reflexivity|].
  apply publishPilet_sameButSource; [repeat split; reflexivity|reflexivity].
Qed.

End Properties.

(** * Runs of the scripted environment *)

(** Two archives match ['*.tgz']; the feed answers 409 to the first and 200
    to the second. *)
Lemma C1_verdict_of_a_nonempty_batch_witness :
  exists r w' trace,
    publishPilet (scripted [] globTwo [] noConfig) None
                 (feedOptions None None None None) [conflict409; ok200]
    = (r, w', trace)
    /\ outcomes trace = [VersionConflict; Success]
    /\ length (outcomes trace) = length ["a.tgz"; "b.tgz"]
    /\ (r = Returned tt <-> Forall (fun c => c = Success) (outcomes trace))
    /\ (r <> Returned tt -> r = Threw (Fatal failedUploading_0064 [])).
Proof.
  eapply (C1_verdict_of_a_nonempty_batch (scripted [] globTwo [] noConfig)
            None (feedOptions None None None None) [conflict409; ok200]
            "https://feed.example/api" None [conflict409; ok200] _
            ["a.tgz"; "b.tgz"] [conflict409; ok200] _).
  - reflexivity.
  - discriminate.
  - reflexivity.
  - reflexivity.
  - discriminate.
Defined.

(** No archive matches: nothing is recorded, so every recorded outcome is a
    success, and yet the run does not end in success. *)
Lemma C1_counterexample_empty_batch :
  fst (fst (publishPilet (scripted [] globNone [] noConfig) None
                         (feedOptions None None None None) []))
  = Threw (Fatal missingPiletTarball_0061 ["*.tgz"])
  /\ Forall (fun c => c = Success)
            (outcomes (snd (publishPilet (scripted [] globNone [] noConfig) None
                                         (feedOptions None None None None) [])))
  /\ ~ (fst (fst (publishPilet (scripted [] globNone [] noConfig) None
                               (feedOptions None None None None) []))
        = Returned tt
        <-> Forall (fun c => c = Success)
              (outcomes (snd (publishPilet (scripted [] globNone [] noConfig)
                                           None
                                           (feedOptions None None None None)
                                           [])))).
Proof.
  split; [reflexivity|]. split; [constructor|].
  intros [_ H]. specialize (H (Forall_nil _)). discriminate H.
Qed.

(** The feed answers 409 to a file that can be read. *)
Lemma C2_classification_by_status_witness :
  reported conflict409 = spec_classification (status conflict409)
  /\ exists trace,
      uploadFile (scripted [] globTwo [] noConfig) "/work"
                 "https://feed.example/api"
                 (destructure (scripted [] globTwo [] noConfig)
                              (feedOptions None None None None))
                 None [] "a.tgz" [conflict409]
      = (Returned (pushed (spec_classification (status conflict409)) [] "a.tgz"),
         [], trace)
      /\ outcomes trace = [spec_classification (status conflict409)].
Proof.
  apply (C2_classification_by_status (scripted [] globTwo [] noConfig) "/work"
           "https://feed.example/api"
           (destructure (scripted [] globTwo [] noConfig)
                        (feedOptions None None None None))
           None [] "a.tgz" [conflict409] [] [conflict409] conflict409 []).
  - reflexivity.
  - reflexivity.
  - reflexivity.
Defined.

(** The first of two archives cannot be read. *)
Lemma C3_loop_attempts_every_artifact_witness :
  uploadFile (scripted [] globTwo ["a.tgz"] noConfig) "/work"
             "https://feed.example/api"
             (destructure (scripted [] globTwo ["a.tgz"] noConfig)
                          (feedOptions None None None None))
             None [] "a.tgz" [ok200]
  = (Returned [], [ok200],
     [EvLog generalDebug_0003 (ArgText "Reading the file for upload ...");
      EvReadBinary "/work" "a.tgz";
      EvLog failedToRead_0063 (ArgText "a.tgz");
      EvLog generalDebug_0003 (ArgText "Finished uploading the file.")]).
Proof.
  apply (proj2 (C3_loop_attempts_every_artifact
                  (scripted [] globTwo ["a.tgz"] noConfig) "/work"
                  "https://feed.example/api"
                  (destructure (scripted [] globTwo ["a.tgz"] noConfig)
                               (feedOptions None None None None))
                  None ["a.tgz"; "b.tgz"] [] [ok200])
               "a.tgz" [ok200] [ok200]).
  reflexivity.
Defined.

(** Neither the options nor the configuration name a feed. *)
Lemma C4_missing_feed_url_is_fatal_witness :
  exists trace,
    publishPilet (scripted [] globTwo [] noConfig) None noOptions [ok200]
    = (Threw (Fatal missingPiletFeedUrl_0060 []), [ok200], trace)
    /\ trace = [EvSetLogLevel
                 (logLevel (destructure (scripted [] globTwo [] noConfig)
                                        noOptions));
               EvProgress "Reading configuration ..." []]
    /\ helperCalls trace = []
    /\ posts trace = [].
Proof.
  apply (C4_missing_feed_url_is_fatal (scripted [] globTwo [] noConfig) None
           noOptions [ok200]).
  left. reflexivity.
Defined.

(** The certificate file that the options name does not exist, and two
    archives are published all the same. *)
Lemma C5_counterexample_missing_certificate :
  fst (fst (publishPilet (scripted [] globTwo [] noConfig) None
                         (feedOptions None (Some "missing.pem") None None)
                         [ok200; ok200]))
  = Returned tt
  /\ length (posts (snd (publishPilet (scripted [] globTwo [] noConfig) None
                           (feedOptions None (Some "missing.pem") None None)
                           [ok200; ok200])))
     = 2.
Proof. split; reflexivity. Qed.

Lemma C5_absent_certificate_is_skipped_witness :
  readCertificate (scripted [] globTwo [] noConfig) (Some "missing.pem")
                  [ok200; ok200]
  = (Returned None, [ok200; ok200],
     [EvLog generalDebug_0003 (ArgText "Checking if certificate exists.");
      EvCheckExists (Some "missing.pem")])
  /\ publishPilet (scripted [] globTwo [] noConfig) None
                  (feedOptions None (Some "missing.pem") None None)
                  [ok200; ok200]
     = (let '(r, w', trace) :=
          publishFiles (scripted [] globTwo [] noConfig) "/work"
                       "https://feed.example/api"
                       (destructure (scripted [] globTwo [] noConfig)
                          (feedOptions None (Some "missing.pem") None None))
                       None [ok200; ok200] in
        (r, w',
         [EvSetLogLevel 3%Z;
          EvProgress "Reading configuration ..." [];
          EvLog generalDebug_0003 (ArgText "Checking if certificate exists.");
          EvCheckExists (Some "missing.pem")] ++ trace)).
Proof.
  apply (C5_absent_certificate_is_skipped (scripted [] globTwo [] noConfig)
           None (feedOptions None (Some "missing.pem") None None)
           [ok200; ok200] [ok200; ok200]).
  reflexivity.
Defined.

(** A fresh build where no entry module is found. *)
Lemma C6_entry_file_missing_witness :
  exists trace,
    getFiles (scripted [] globTwo [] noConfig) "/work" ["./src/index"] local
             true None 3%Z None tt None tt [ok200]
    = (Threw (Fatal entryFileMissing_0077 []), [ok200], trace)
    /\ helperCalls trace = [EvMatchAnyPilet "/work" ["./src/index"]]
    /\ filter isTriggerBuildPilet trace = [].
Proof.
  apply (C6_entry_file_missing (scripted [] globTwo [] noConfig) "/work"
           ["./src/index"] local None 3%Z None tt None tt [ok200] [ok200]).
  reflexivity.
Defined.

(** No archive matches ['*.tgz']. *)
Lemma C7_no_artifacts_is_fatal_witness :
  exists trace,
    publishPilet (scripted [] globNone [] noConfig) None
                 (feedOptions None None None None) [ok200]
    = (Threw (Fatal missingPiletTarball_0061 ["*.tgz"]), [ok200], trace)
    /\ posts trace = []
    /\ outcomes trace = [].
Proof.
  eapply (proj1 (C7_no_artifacts_is_fatal (scripted [] globNone [] noConfig))
                None (feedOptions None None None None) [ok200]
                "https://feed.example/api" None).
  - reflexivity.
  - discriminate.
  - reflexivity.
  - reflexivity.
Defined.

(** Two patterns, of which the second matches two archives. *)
Lemma C8_local_files_in_source_order_witness :
  exists matched w' trace,
    getFiles (scripted [] globTwo [] noConfig) "/work" ["*.zip"; "*.tgz"]
             local false None 3%Z None tt None tt [ok200]
    = (Returned (concat matched), w', trace)
    /\ matched = [[]; ["a.tgz"; "b.tgz"]].
Proof.
  destruct (C8_local_files_in_source_order (scripted [] globTwo [] noConfig)
              "/work" ["*.zip"; "*.tgz"] None 3%Z None tt None tt [ok200])
    as (matched & w' & trace & Hrun & _ & _ & Hpure).
  exists matched, w', trace. split; [exact Hrun|].
  apply (Hpure globTwo). intros s w0. reflexivity.
Defined.

(** ** The scenarios of the specification *)

(** Two archives, the feed answers 200 to both: the run returns, with two
    successes on record. *)
Example scenario_all_published :
  fst (fst (publishPilet (scripted [] globTwo [] noConfig) None
                         (feedOptions None None None None) [ok200; ok200]))
  = Returned tt
  /\ outcomes (snd (publishPilet (scripted [] globTwo [] noConfig) None
                                 (feedOptions None None None None)
                                 [ok200; ok200]))
     = [Success; Success].
Proof. split; reflexivity. Qed.

(** Two archives, the feed answers 409 to the first and 200 to the second:
    the run fails, both were posted and both outcomes are on record. *)
Example scenario_conflict_then_published :
  fst (fst (publishPilet (scripted [] globTwo [] noConfig) None
                         (feedOptions None None None None)
                         [conflict409; ok200]))
  = Threw (Fatal failedUploading_0064 [])
  /\ outcomes (snd (publishPilet (scripted [] globTwo [] noConfig) None
                                 (feedOptions None None None None)
                                 [conflict409; ok200]))
     = [VersionConflict; Success]
  /\ length (posts (snd (publishPilet (scripted [] globTwo [] noConfig) None
                                      (feedOptions None None None None)
                                      [conflict409; ok200])))
     = 2.
Proof. repeat split; reflexivity. Qed.

(** Two specifiers from the registry: both lookups come before the first
    download. *)
Example scenario_npm_phases :
  helperCalls
    (snd (getFiles (scripted [] globTwo [] noConfig) "/work" ["p"; "q"] npm
                   false None 3%Z None tt None tt []))
  = [EvFindNpmTarball "p"; EvFindNpmTarball "q";
     EvDownloadFile "https://registry/p" None;
     EvDownloadFile "https://registry/q" None].
Proof. reflexivity. Qed.

(** * More of [publish-pilet.ts] *)

Section More.

Context {World BundlerArgs Hooks : Type}.
Context (env : @Env World BundlerArgs Hooks).

Lemma helperCalls_app (t1 t2 : list (@Event BundlerArgs Hooks)) :
  helperCalls (t1 ++ t2) = helperCalls t1 ++ helperCalls t2.
Proof. apply filter_app. Qed.

(** ** The calls of the upload loop *)

Lemma reportResult_calls uploads file fileName result (w : World) :
  helperCalls (snd (@reportResult World BundlerArgs Hooks uploads file fileName
                                  result w))
  = [].
Proof.
  unfold reportResult.
  destruct (success result).
  - destruct (truthy (response result)); reflexivity.
  - repeat match goal with
           | |- context [Z.eqb ?a ?b] => destruct (Z.eqb a b)
           end; reflexivity.
Qed.

Lemma uploadFile_calls fullBase url l ca uploads file (w : World) :
  helperCalls (snd (uploadFile env fullBase url l ca uploads file w))
  = turnCalls env fullBase url l ca file w.
Proof.
  unfold uploadFile, turnCalls, readBinary, postFile, call, log, progress, emit.
  unfold bind at 1 2. simpl.
  destruct (env_readBinary env fullBase (path_relative env fullBase file) w)
    as [[content|] w1].
  - unfold bind at 1 2 3. simpl.
    destruct (env_postFile env url (mode l) (apiKey l) content (fields l)
                           (headers l) ca (interactive l) w1) as [result w2].
    simpl.
    pose proof (reportResult_calls uploads file
                  (path_relative env fullBase file) result w2) as Hquiet.
    destruct (@reportResult_run World BundlerArgs Hooks uploads file
                (path_relative env fullBase file) result w2)
      as (tr & Hrun & _).
    rewrite Hrun in Hquiet |- *. cbn [snd] in Hquiet.
    unfold bind, ret. simpl. unfold helperCalls in *.
    rewrite filter_app, Hquiet. reflexivity.
  - unfold bind, ret. reflexivity.
Qed.

Lemma uploadFiles_calls fullBase url l ca files :
  forall uploads (w : World),
    helperCalls (snd (uploadFiles env fullBase url l ca uploads files w))
    = loopCalls env fullBase url l ca files w.
Proof.
  induction files as [|file rest IH]; intros uploads w; [reflexivity|].
  pose proof (uploadFile_calls fullBase url l ca uploads file w) as Hturn.
  destruct (uploadFile_run env fullBase url l ca uploads file w)
    as (t1 & Hrun & _).
  rewrite Hrun in Hturn. cbn [snd] in Hturn.
  cbn [uploadFiles loopCalls]. rewrite (bind_returned _ _ _ _ _ _ Hrun).
  specialize (IH (pushed (outcomeAt env fullBase url l ca file w) uploads file)
                 (worldAfter env fullBase url l ca file w)).
  destruct (uploadFiles env fullBase url l ca
              (pushed (outcomeAt env fullBase url l ca file w) uploads file)
              rest (worldAfter env fullBase url l ca file w))
    as [[r w2] t2].
  cbn [snd] in IH |- *. rewrite helperCalls_app, Hturn, IH. reflexivity.
Qed.

(** X7.  The helper calls of the upload loop are, file by file in the order
    of the list, the read of the file followed by the post of the content
    that was read, or the read alone when it gave no content: the uploads
    are made one after the other, and what is posted for a file is what
    was read for it. *)
Theorem loop_reads_then_posts_file_by_file fullBase url l ca files uploads
  (w : World) :
  exists uploads' w' trace,
    uploadFiles env fullBase url l ca uploads files w
    = (Returned uploads', w', trace)
    /\ helperCalls trace = loopCalls env fullBase url l ca files w.
Proof.
  pose proof (uploadFiles_calls fullBase url l ca files uploads w) as Hcalls.
  destruct (uploadFiles_run env fullBase url l ca files uploads w)
    as (uploads' & w' & trace & Hrun & _).
  rewrite Hrun in Hcalls. exists uploads', w', trace.
  split; [exact Hrun|exact Hcalls].
Qed.

(** X11.  The loop returns the list it was given followed by the files
    whose turn ended in success, in their order: [successfulUploads] holds
    the published files and no other. *)
Theorem loop_returns_the_published_files fullBase url l ca files :
  forall uploads (w : World),
  exists w' trace,
    uploadFiles env fullBase url l ca uploads files w
    = (Returned (uploads ++ published env fullBase url l ca files w),
       w', trace).
Proof.
  induction files as [|file rest IH]; intros uploads w.
  - exists w, []. cbn. rewrite app_nil_r. reflexivity.
  - destruct (uploadFile_run env fullBase url l ca uploads file w)
      as (t1 & Hrun & _).
    destruct (IH (pushed (outcomeAt env fullBase url l ca file w) uploads file)
                 (worldAfter env fullBase url l ca file w))
      as (w2 & t2 & Hrest).
    exists w2, (t1 ++ t2).
    cbn [uploadFiles published]. rewrite (bind_returned _ _ _ _ _ _ Hrun), Hrest.
    unfold pushed. destruct (isSuccess (outcomeAt env fullBase url l ca file w));
      cbn [app]; rewrite <- ?app_assoc; reflexivity.
Qed.

(** ** The other ways of [getFiles] *)

Lemma getFiles_remote_run baseDir sources originalSchemaVersion logLevel
  bundlerName args ca hooks (w : World) allFiles w' :
  promiseAllMap (fun s => call (@EvDownloadFile BundlerArgs Hooks s ca)
                               (env_downloadFile env s ca)) sources w
  = (Returned allFiles, w', map (fun s => EvDownloadFile s ca) sources) ->
  getFiles env baseDir sources remote false originalSchemaVersion logLevel
           bundlerName args ca hooks w
  = (Returned (concat allFiles), w',
     [EvLog generalDebug_0003
            (ArgText ("Did not find fresh flag. Trying to match from "
                      ++ quoted "remote" ++ "."));
      EvLog generalDebug_0003
            (ArgText ("Download file from "
                      ++ quoted (joinQuoted sources) ++ "."))]
     ++ map (fun s => EvDownloadFile s ca) sources).
Proof.
  intros Hrun. unfold getFiles. unfold bind at 1. cbn [log emit].
  unfold bind at 1. cbn [log emit]. unfold downloadFile.
  rewrite (bind_returned _ _ _ _ _ _ Hrun).
  unfold ret. rewrite flatten_concat, app_nil_r. reflexivity.
Qed.

(** X1.  From [remote], without [fresh], [getFiles] calls [downloadFile]
    once per source, in the order of the sources and each time with the
    certificate it was given, and returns the concatenation of what the
    downloads gave, in that order. *)
Theorem remote_downloads_in_source_order baseDir sources originalSchemaVersion
  logLevel bundlerName args ca hooks (w : World) :
  exists allFiles w' trace,
    getFiles env baseDir sources remote false originalSchemaVersion logLevel
             bundlerName args ca hooks w
    = (Returned (concat allFiles), w', trace)
    /\ answered (fun s => env_downloadFile env s ca) sources allFiles
    /\ helperCalls trace = map (fun s => EvDownloadFile s ca) sources.
Proof.
  destruct (@promiseAllMap_call World BundlerArgs Hooks _ _
              (fun s => EvDownloadFile s ca)
              (fun s => env_downloadFile env s ca) sources w)
    as (allFiles & w' & Hrun & Hans).
  exists allFiles, w'. eexists. split.
  - apply getFiles_remote_run. exact Hrun.
  - split; [exact Hans|].
    unfold helperCalls. rewrite filter_app. cbn [filter isHelperCall app].
    apply filter_map_all. reflexivity.
Qed.

(** X5.  From [npm], [getFiles] does what it does from [remote] for the
    URLs that the lookups of the sources gave, in the world that the
    lookups left: the result and the last world are the same, and the
    helper calls are the lookups, one per source in their order, followed
    by the helper calls of that run from [remote]. *)
Theorem npm_is_remote_for_the_looked_up_urls baseDir sources
  originalSchemaVersion logLevel bundlerName args ca hooks (w : World) :
  exists allUrls w1,
    answered (env_findNpmTarball env) sources allUrls
    /\ fst (getFiles env baseDir sources npm false originalSchemaVersion
                     logLevel bundlerName args ca hooks w)
       = fst (getFiles env baseDir allUrls remote false originalSchemaVersion
                       logLevel bundlerName args ca hooks w1)
    /\ helperCalls (snd (getFiles env baseDir sources npm false
                                  originalSchemaVersion logLevel bundlerName
                                  args ca hooks w))
       = map EvFindNpmTarball sources
         ++ helperCalls (snd (getFiles env baseDir allUrls remote false
                                       originalSchemaVersion logLevel
                                       bundlerName args ca hooks w1)).
Proof.
  destruct (@promiseAllMap_call World BundlerArgs Hooks _ _ EvFindNpmTarball
              (env_findNpmTarball env) sources w)
    as (allUrls & w1 & Hlook & Hurls).
  destruct (@promiseAllMap_call World BundlerArgs Hooks _ _
              (fun url => EvDownloadFile url ca)
              (fun url => env_downloadFile env url ca) allUrls w1)
    as (allFiles & w2 & Hdown & _).
  exists allUrls, w1. split; [exact Hurls|].
  rewrite (getFiles_remote_run baseDir allUrls originalSchemaVersion logLevel
             bundlerName args ca hooks w1 allFiles w2 Hdown).
  assert (Hnpm :
            getFiles env baseDir sources npm false originalSchemaVersion
                     logLevel bundlerName args ca hooks w
            = (Returned (concat allFiles), w2,
               [EvLog generalDebug_0003
                      (ArgText ("Did not find fresh flag. Trying to match from "
                                ++ quoted "npm" ++ "."));
                EvLog generalDebug_0003
                      (ArgText ("View npm package "
                                ++ quoted (joinQuoted sources) ++ "."))]
               ++ map EvFindNpmTarball sources
               ++ EvLog generalDebug_0003
                        (ArgText ("Download file from "
                                  ++ quoted (joinQuoted allUrls) ++ "."))
               :: map (fun url => EvDownloadFile url ca) allUrls)).
  { unfold getFiles. unfold bind at 1. cbn [log emit].
    unfold bind at 1. cbn [log emit]. unfold findNpmTarball, downloadFile.
    rewrite (bind_returned _ _ _ _ _ _ Hlook).
    unfold bind at 1. cbn [log emit].
    rewrite (bind_returned _ _ _ _ _ _ Hdown).
    unfold ret. rewrite flatten_concat, app_nil_r. reflexivity. }
  rewrite Hnpm. cbn [fst snd]. split; [reflexivity|].
  unfold helperCalls. rewrite !filter_app. cbn [filter isHelperCall app].
  rewrite !filter_map_all by reflexivity. reflexivity.
Qed.

(** The tasks of a [Promise.all], with what relates each argument to its
    result and what the trace of each task holds. *)
Lemma promiseAllMap_traced {A B : Type} (R : A -> B -> Prop)
  (k : A -> list (@Event BundlerArgs Hooks))
  (f : A -> @Async World BundlerArgs Hooks B) :
  (forall x w, exists y w' t,
      f x w = (Returned y, w', t) /\ R x y /\ helperCalls t = k x) ->
  forall xs w,
  exists ys w' t,
    promiseAllMap f xs w = (Returned ys, w', t)
    /\ Forall2 R xs ys
    /\ helperCalls t = concat (map k xs).
Proof.
  intros Hf xs. induction xs as [|x rest IH]; intros w.
  - exists [], w, []. repeat split. constructor.
  - destruct (Hf x w) as (y & w1 & t1 & Hx & HR & Hk).
    destruct (IH w1) as (ys & w2 & t2 & Hrest & Hall & Hcalls).
    exists (y :: ys), w2, (t1 ++ t2 ++ []). split.
    { cbn [promiseAllMap]. rewrite (bind_returned _ _ _ _ _ _ Hx).
      rewrite (bind_returned _ _ _ _ _ _ Hrest). reflexivity. }
    split; [constructor; assumption|].
    rewrite app_nil_r, helperCalls_app, Hk, Hcalls. reflexivity.
Qed.

Lemma concat_map_singleton {A B : Type} (f : A -> B) (xs : list A) :
  concat (map (fun x => [f x]) xs) = map f xs.
Proof.
  induction xs as [|x rest IH]; [reflexivity|].
  cbn [map concat app]. rewrite IH. reflexivity.
Qed.

Lemma concat_map_nil {A B : Type} (xs : list A) :
  concat (map (fun _ : A => @nil B) xs) = [].
Proof. induction xs as [|x rest IH]; [reflexivity|exact IH]. Qed.

(** The staged tasks of a fresh build: the builds are triggered for all the
    entry modules, in their order, before anything is packed; then one
    pack is made per build. *)
Lemma freshTasks_run fresh originalSchemaVersion logLevel bundlerName args
  hooks entries (w : World) :
  exists builds files w' buildsPart packsPart,
    promiseAllStaged
      (buildStage env fresh originalSchemaVersion logLevel bundlerName args
                  hooks)
      (packStage env) doneStage entries w
    = (Returned files, w', buildsPart ++ packsPart)
    /\ Forall2 (packedFrom env fresh originalSchemaVersion logLevel bundlerName
                           args hooks) entries files
    /\ helperCalls buildsPart
       = map (fun entryModule =>
                EvTriggerBuildPilet
                  (buildArgsOf fresh originalSchemaVersion logLevel
                               bundlerName args hooks entryModule))
             entries
    /\ helperCalls packsPart
       = map (fun built => EvCreatePiletPackage (root built) "." ".") builds
    /\ length builds = length entries.
Proof.
  destruct (promiseAllMap_traced
              (fun entryModule built =>
                 exists w0 w1,
                   env_triggerBuildPilet env
                     (buildArgsOf fresh originalSchemaVersion logLevel
                                  bundlerName args hooks entryModule) w0
                   = (built, w1))
              (fun entryModule =>
                 [EvTriggerBuildPilet
                    (buildArgsOf fresh originalSchemaVersion logLevel
                                 bundlerName args hooks entryModule)])
              (buildStage env fresh originalSchemaVersion logLevel bundlerName
                          args hooks))
    with (xs := entries) (w := w)
    as (builds & w1 & t1 & Hrun1 & Hall1 & Hcalls1).
  { intros entry w0.
    unfold buildStage, triggerBuildPilet, call, progress, emit, bind.
    fold (buildArgsOf fresh originalSchemaVersion logLevel bundlerName args
                      hooks entry).
    destruct (env_triggerBuildPilet env
                (buildArgsOf fresh originalSchemaVersion logLevel bundlerName
                             args hooks entry) w0) as [built w0'] eqn:Hb.
    exists built, w0'. eexists. split; [reflexivity|].
    split; [exists w0, w0'; exact Hb|reflexivity]. }
  destruct (promiseAllMap_traced
              (fun built (packed : string * string) =>
                 exists w0 w1,
                   env_createPiletPackage env (root built) "." "." w0
                   = (snd packed, w1))
              (fun built => [EvCreatePiletPackage (root built) "." "."])
              (packStage env))
    with (xs := builds) (w := w1)
    as (packs & w2 & t2 & Hrun2 & Hall2 & Hcalls2).
  { intros built w0.
    unfold packStage, createPiletPackage, call, log, progress, emit, bind, ret.
    destruct (env_createPiletPackage env (root built) "." "." w0)
      as [file w0'] eqn:Hp.
    eexists _, w0'. eexists. split; [reflexivity|].
    split; [exists w0, w0'; exact Hp|reflexivity]. }
  destruct (promiseAllMap_traced
              (fun (packed : string * string) file => file = snd packed)
              (fun _ => [])
              (@doneStage World BundlerArgs Hooks))
    with (xs := packs) (w := w2)
    as (files & w3 & t3 & Hrun3 & Hall3 & Hcalls3).
  { intros [name file] w0. unfold doneStage, log, emit, bind, ret.
    exists file, w0. eexists. repeat split. }
  exists builds, files, w3, t1, (t2 ++ t3). split.
  { unfold promiseAllStaged.
    rewrite (bind_returned _ _ _ _ _ _ Hrun1).
    rewrite (bind_returned _ _ _ _ _ _ Hrun2). rewrite Hrun3. reflexivity. }
  split.
  { clear - Hall1 Hall2 Hall3. revert packs files Hall2 Hall3.
    induction Hall1 as [|entry built entries builds (w0 & w1 & Hb) _ IH];
      intros packs files Hall2 Hall3.
    - inversion Hall2; subst. inversion Hall3; subst. constructor.
    - inversion Hall2 as [|? packed ? packs' (w2 & w3 & Hp) Hrest2]; subst.
      inversion Hall3 as [|? file ? files' Hfile Hrest3]; subst.
      constructor; [|apply (IH packs' files'); assumption].
      exists w0, built, w1, w2, w3. split; assumption. }
  split; [rewrite Hcalls1; apply concat_map_singleton|].
  split.
  - rewrite helperCalls_app, Hcalls2, Hcalls3, concat_map_nil, app_nil_r.
    apply concat_map_singleton.
  - symmetry. eapply Forall2_length. exact Hall1.
Qed.

(** For one entry module the staged tasks are the callback run from its
    start to its end. *)
Lemma freshTasks_of_one_entry fresh originalSchemaVersion logLevel bundlerName
  args hooks entryModule (w : World) :
  promiseAllStaged
    (buildStage env fresh originalSchemaVersion logLevel bundlerName args
                hooks)
    (packStage env) doneStage [entryModule] w
  = bind (buildAndPack env fresh originalSchemaVersion logLevel bundlerName
                       args hooks entryModule)
         (fun file => ret [file]) w.
Proof.
  unfold promiseAllStaged, buildAndPack, buildStage, packStage, doneStage.
  cbn [promiseAllMap].
  unfold triggerBuildPilet, createPiletPackage, call, progress, log, emit,
    bind, ret.
  destruct (env_triggerBuildPilet env _ w) as [built w1].
  cbn [promiseAllMap]. unfold bind, ret.
  destruct (env_createPiletPackage env (root built) "." "." w1) as [file w2].
  cbn [promiseAllMap]. unfold bind, ret. reflexivity.
Qed.

Lemma getFiles_fresh_run baseDir sources from originalSchemaVersion logLevel
  bundlerName args ca hooks (w : World) entries w1 files w' t :
  env_matchAnyPilet env baseDir sources w = (entries, w1) ->
  entries <> [] ->
  promiseAllStaged
    (buildStage env true originalSchemaVersion logLevel bundlerName args hooks)
    (packStage env) doneStage entries w1
  = (Returned files, w', t) ->
  getFiles env baseDir sources from true originalSchemaVersion logLevel
           bundlerName args ca hooks w
  = (Returned files, w',
     [EvLog generalDebug_0003
            (ArgText ("Detected " ++ quoted "--fresh"
                      ++ ". Trying to resolve the package.json."));
      EvMatchAnyPilet baseDir sources] ++ t).
Proof.
  intros Hmatch Hne Hrun. unfold getFiles. unfold bind at 1. cbn [log emit].
  unfold bind at 1, matchAnyPilet at 1, call at 1. rewrite Hmatch.
  destruct entries as [|entry rest]; [contradiction|].
  unfold bind at 1. cbn [length Nat.eqb ret]. rewrite Hrun. reflexivity.
Qed.

(** X2.  A run of [getFiles] with [fresh] that returns has found an entry
    module and returns one archive per entry module, in the order of the
    entry modules: each is what packing with ['.'] and ['.'] gave for the
    root of a build of that entry.  Its trace has two parts.  In the first
    the builds are triggered for all the entry modules, once each and in
    their order, never in watch mode and always minified, with source
    maps, declaration and content hash; the second holds the packs, one
    per build, and no build: every build is triggered before anything is
    packed.  No other helper is called, and neither [from] nor the
    certificate has a part in the run. *)
Theorem fresh_build_gives_one_archive_per_entry baseDir sources from
  originalSchemaVersion logLevel bundlerName args ca hooks (w : World)
  entries w1 files w' trace :
  env_matchAnyPilet env baseDir sources w = (entries, w1) ->
  getFiles env baseDir sources from true originalSchemaVersion logLevel
           bundlerName args ca hooks w
  = (Returned files, w', trace) ->
  entries <> []
  /\ Forall2 (packedFrom env true originalSchemaVersion logLevel bundlerName
                         args hooks) entries files
  /\ (exists builds buildsPart packsPart,
        trace = buildsPart ++ packsPart
        /\ helperCalls buildsPart
           = EvMatchAnyPilet baseDir sources
             :: map (fun entryModule =>
                       EvTriggerBuildPilet
                         (buildArgsOf true originalSchemaVersion logLevel
                                      bundlerName args hooks entryModule))
                    entries
        /\ helperCalls packsPart
           = map (fun built => EvCreatePiletPackage (root built) "." ".")
                 builds
        /\ length builds = length entries)
  /\ (forall from' ca',
        getFiles env baseDir sources from' true originalSchemaVersion logLevel
                 bundlerName args ca' hooks w
        = (Returned files, w', trace)).
Proof.
  intros Hmatch Hget.
  assert (Hne : entries <> []).
  { intros ->. revert Hget. unfold getFiles. unfold bind at 1. cbn [log emit].
    unfold bind at 1, matchAnyPilet at 1, call at 1. rewrite Hmatch.
    discriminate. }
  split; [exact Hne|].
  destruct (freshTasks_run true originalSchemaVersion logLevel bundlerName
              args hooks entries w1)
    as (builds & files0 & w2 & buildsPart & packsPart & Hrun & Hall & Hbuilds
        & Hpacks & Hlen).
  pose proof (fun from' ca' =>
                getFiles_fresh_run baseDir sources from' originalSchemaVersion
                  logLevel bundlerName args ca' hooks w entries w1 files0 w2
                  _ Hmatch Hne Hrun) as Hall_runs.
  rewrite (Hall_runs from ca) in Hget. injection Hget as <- <- <-.
  split; [exact Hall|]. split; [|exact Hall_runs].
  exists builds,
    ([EvLog generalDebug_0003
            (ArgText ("Detected " ++ quoted "--fresh"
                      ++ ". Trying to resolve the package.json."));
      EvMatchAnyPilet baseDir sources] ++ buildsPart),
    packsPart.
  split; [rewrite <- app_assoc; reflexivity|].
  split; [rewrite helperCalls_app, Hbuilds; reflexivity|].
  split; assumption.
Qed.

(** ** The stages of a run and their events *)

Lemma filter_none_sub {A : Type} (p q : A -> bool) (xs : list A) :
  (forall x, p x = true -> q x = true) ->
  filter q xs = [] -> filter p xs = [].
Proof.
  intros Hsub. induction xs as [|x rest IH]; [reflexivity|].
  cbn [filter]. destruct (q x) eqn:Hq; [discriminate|].
  destruct (p x) eqn:Hp; [rewrite (Hsub x Hp) in Hq; discriminate|exact IH].
Qed.

Lemma filter_sub {A : Type} (p q : A -> bool) (xs : list A) :
  (forall x, p x = true -> q x = true) ->
  filter p (filter q xs) = filter p xs.
Proof.
  intros Hsub. induction xs as [|x rest IH]; [reflexivity|].
  cbn [filter]. destruct (q x) eqn:Hq; cbn [filter].
  - rewrite IH. reflexivity.
  - destruct (p x) eqn:Hp; [rewrite (Hsub x Hp) in Hq; discriminate|exact IH].
Qed.

Lemma readCertificate_before cert (w : World) :
  filter isUploadEvent (snd (readCertificate env cert w)) = [].
Proof.
  unfold readCertificate, checkExists, readBinary, call, log, emit, bind, ret,
    throw.
  destruct (env_checkExists env cert w) as [[|] w1]; [|reflexivity].
  destruct cert as [c|]; [|reflexivity].
  destruct (env_readBinary env (path_dirname env c) (path_basename env c) w1).
  reflexivity.
Qed.

(** [readCertificate] throws nothing but the [TypeError] of a path function,
    and that only without a [cert]. *)
Lemma readCertificate_throws cert (w : World) e w' t :
  readCertificate env cert w = (Threw e, w', t) ->
  e = TypeError /\ cert = None.
Proof.
  unfold readCertificate, checkExists, readBinary, call, log, emit, bind, ret,
    throw.
  destruct (env_checkExists env cert w) as [[|] w1]; [|discriminate].
  destruct cert as [c|].
  - destruct (env_readBinary env (path_dirname env c) (path_basename env c) w1).
    discriminate.
  - intros H. injection H as He _ _. split; congruence.
Qed.

Lemma getFiles_before baseDir sources from fresh originalSchemaVersion logLevel
  bundlerName args ca hooks (w : World) :
  filter isUploadEvent
         (snd (getFiles env baseDir sources from fresh originalSchemaVersion
                        logLevel bundlerName args ca hooks w))
  = [].
Proof.
  unfold getFiles. destruct fresh.
  - unfold bind at 1. cbn [log emit].
    unfold bind at 1, matchAnyPilet at 1, call at 1.
    destruct (env_matchAnyPilet env baseDir sources w) as [allEntries w1].
    destruct allEntries as [|entry rest]; [reflexivity|].
    unfold bind at 1. cbn [length Nat.eqb ret].
    destruct (freshTasks_return env
                (fun t => filter isUploadEvent t = [])
                true originalSchemaVersion logLevel bundlerName args hooks
                eq_refl
                (fun t1 t2 H1 H2 =>
                   eq_trans (filter_app _ t1 t2)
                            (eq_trans (f_equal2 (@app _) H1 H2) eq_refl))
                (fun _ => eq_refl) (fun _ _ => eq_refl) (fun _ => eq_refl)
                (entry :: rest) w1) as (ys & w2 & t & Hrun & Hnone & _).
    rewrite Hrun. cbn [snd app filter isUploadEvent isPostFile isLogDone
                       outcomeOf orb].
    exact Hnone.
  - unfold bind at 1. cbn [log emit].
    destruct from.
    + unfold bind at 1. cbn [log emit]. unfold matchFiles.
      destruct (@promiseAllMap_call World BundlerArgs Hooks _ _
                  (EvMatchFiles baseDir) (env_matchFiles env baseDir) sources w)
        as (ys & w1 & Hrun & _).
      rewrite (bind_returned _ _ _ _ _ _ Hrun). cbn [ret snd app].
      rewrite app_nil_r. cbn [filter isUploadEvent isPostFile isLogDone
                              outcomeOf orb].
      apply filter_map_none. reflexivity.
    + unfold bind at 1. cbn [log emit]. unfold downloadFile.
      destruct (@promiseAllMap_call World BundlerArgs Hooks _ _
                  (fun s => EvDownloadFile s ca)
                  (fun s => env_downloadFile env s ca) sources w)
        as (ys & w1 & Hrun & _).
      rewrite (bind_returned _ _ _ _ _ _ Hrun). cbn [ret snd app].
      rewrite app_nil_r. cbn [filter isUploadEvent isPostFile isLogDone
                              outcomeOf orb].
      apply filter_map_none. reflexivity.
    + unfold bind at 1. cbn [log emit]. unfold findNpmTarball, downloadFile.
      destruct (@promiseAllMap_call World BundlerArgs Hooks _ _
                  EvFindNpmTarball (env_findNpmTarball env) sources w)
        as (urls & w1 & Hlook & _).
      rewrite (bind_returned _ _ _ _ _ _ Hlook).
      unfold bind at 1. cbn [log emit].
      destruct (@promiseAllMap_call World BundlerArgs Hooks _ _
                  (fun u => EvDownloadFile u ca)
                  (fun u => env_downloadFile env u ca) urls w1)
        as (ys & w2 & Hdown & _).
      rewrite (bind_returned _ _ _ _ _ _ Hdown). cbn [ret snd app].
      rewrite app_nil_r. cbn [filter isUploadEvent isPostFile isLogDone
                              outcomeOf orb].
      rewrite filter_app. cbn [filter isUploadEvent isPostFile isLogDone
                               outcomeOf orb].
      rewrite !filter_map_none by reflexivity. reflexivity.
Qed.

(** [getFiles] throws nothing but [entryFileMissing_0077], and that only
    with [fresh]; with [fresh] it returns no empty list. *)
Lemma getFiles_endings baseDir sources from fresh originalSchemaVersion
  logLevel bundlerName args ca hooks (w : World) :
  match fst (fst (getFiles env baseDir sources from fresh
                           originalSchemaVersion logLevel bundlerName args ca
                           hooks w)) with
  | Returned files => fresh = true -> files <> []
  | Threw e => e = Fatal entryFileMissing_0077 [] /\ fresh = true
  end.
Proof.
  destruct fresh.
  - destruct (env_matchAnyPilet env baseDir sources w) as [entries w1] eqn:Hm.
    destruct entries as [|entry rest].
    + unfold getFiles. unfold bind at 1. cbn [log emit].
      unfold bind at 1, matchAnyPilet at 1, call at 1. rewrite Hm.
      cbn. split; reflexivity.
    + destruct (freshTasks_return env (fun _ => True) true
                  originalSchemaVersion logLevel bundlerName args hooks I
                  (fun _ _ _ _ => I) (fun _ => I) (fun _ _ => I) (fun _ => I)
                  (entry :: rest) w1) as (files & w' & t & Hrun & _ & Hlen).
      rewrite (getFiles_fresh_run baseDir sources from originalSchemaVersion
                 logLevel bundlerName args ca hooks w (entry :: rest) w1 files
                 w' t Hm ltac:(discriminate) Hrun).
      cbn [fst]. intros _ Hnil. subst files. discriminate Hlen.
  - unfold getFiles. unfold bind at 1. cbn [log emit].
    destruct from.
    + unfold bind at 1. cbn [log emit]. unfold matchFiles.
      destruct (@promiseAllMap_call World BundlerArgs Hooks _ _
                  (EvMatchFiles baseDir) (env_matchFiles env baseDir) sources w)
        as (ys & w1 & Hrun & _).
      rewrite (bind_returned _ _ _ _ _ _ Hrun). cbn. discriminate.
    + unfold bind at 1. cbn [log emit]. unfold downloadFile.
      destruct (@promiseAllMap_call World BundlerArgs Hooks _ _
                  (fun s => EvDownloadFile s ca)
                  (fun s => env_downloadFile env s ca) sources w)
        as (ys & w1 & Hrun & _).
      rewrite (bind_returned _ _ _ _ _ _ Hrun). cbn. discriminate.
    + unfold bind at 1. cbn [log emit]. unfold findNpmTarball, downloadFile.
      destruct (@promiseAllMap_call World BundlerArgs Hooks _ _
                  EvFindNpmTarball (env_findNpmTarball env) sources w)
        as (urls & w1 & Hlook & _).
      rewrite (bind_returned _ _ _ _ _ _ Hlook).
      unfold bind at 1. cbn [log emit].
      destruct (@promiseAllMap_call World BundlerArgs Hooks _ _
                  (fun u => EvDownloadFile u ca)
                  (fun u => env_downloadFile env u ca) urls w1)
        as (ys & w2 & Hdown & _).
      rewrite (bind_returned _ _ _ _ _ _ Hdown). cbn. discriminate.
Qed.

Lemma uploadFile_no_done fullBase url l ca uploads file (w : World) :
  filter isLogDone (snd (uploadFile env fullBase url l ca uploads file w)) = [].
Proof.
  unfold uploadFile, readBinary, postFile, call, log, progress, emit.
  unfold bind at 1 2. simpl.
  destruct (env_readBinary env fullBase (path_relative env fullBase file) w)
    as [[content|] w1].
  - unfold bind at 1 2 3. simpl.
    destruct (env_postFile env url (mode l) (apiKey l) content (fields l)
                           (headers l) ca (interactive l) w1) as [result w2].
    simpl. unfold reportResult, bind, ret, log, progress, emit.
    destruct (success result).
    + destruct (truthy (response result)); reflexivity.
    + repeat match goal with
             | |- context [Z.eqb ?a ?b] => destruct (Z.eqb a b)
             end; reflexivity.
  - unfold bind, ret. reflexivity.
Qed.

Lemma uploadFiles_no_done fullBase url l ca files :
  forall uploads (w : World),
    filter isLogDone (snd (uploadFiles env fullBase url l ca uploads files w))
    = [].
Proof.
  induction files as [|file rest IH]; intros uploads w; [reflexivity|].
  pose proof (uploadFile_no_done fullBase url l ca uploads file w) as Hturn.
  destruct (uploadFile_run env fullBase url l ca uploads file w)
    as (t1 & Hrun & _).
  rewrite Hrun in Hturn. cbn [snd] in Hturn.
  cbn [uploadFiles]. rewrite (bind_returned _ _ _ _ _ _ Hrun).
  specialize (IH (pushed (outcomeAt env fullBase url l ca file w) uploads file)
                 (worldAfter env fullBase url l ca file w)).
  destruct (uploadFiles env fullBase url l ca
              (pushed (outcomeAt env fullBase url l ca file w) uploads file)
              rest (worldAfter env fullBase url l ca file w))
    as [[r w2] t2].
  cbn [snd] in IH |- *. rewrite filter_app, Hturn, IH. reflexivity.
Qed.

Lemma loopCalls_no_resolution fullBase url l ca files :
  forall w : World,
    filter isResolutionCall (loopCalls env fullBase url l ca files w) = [].
Proof.
  induction files as [|file rest IH]; intros w; [reflexivity|].
  cbn [loopCalls]. rewrite filter_app, IH, app_nil_r. unfold turnCalls.
  destruct (env_readBinary env fullBase (path_relative env fullBase file) w)
    as [[content|] w1]; reflexivity.
Qed.

Lemma loopCalls_posts fullBase url l ca files :
  forall w : World,
    Forall (fun e =>
              exists content,
                e = EvPostFile url (mode l) (apiKey l) content (fields l)
                               (headers l) ca (interactive l))
           (posts (loopCalls env fullBase url l ca files w)).
Proof.
  induction files as [|file rest IH]; intros w; [constructor|].
  cbn [loopCalls]. rewrite posts_app. apply Forall_app. split; [|apply IH].
  unfold turnCalls.
  destruct (env_readBinary env fullBase (path_relative env fullBase file) w)
    as [[content|] w1]; cbn; [|constructor].
  constructor; [exists content; reflexivity|constructor].
Qed.

(** The loop and the verdict, by the run of the loop. *)
Lemma uploadAndReport_shape fullBase url l ca files (w : World) :
  exists uploads w' t,
    uploadFiles env fullBase url l ca [] files w = (Returned uploads, w', t)
    /\ uploadAndReport env fullBase url l ca files w
       = (if Nat.eqb (length files) (length uploads)
          then Returned tt
          else Threw (Fatal failedUploading_0064 []),
          w',
          EvLog generalInfo_0000
                (ArgText ("Using feed service " ++ quoted url ++ "."))
          :: t
          ++ (if Nat.eqb (length files) (length uploads)
              then [EvLogDone "Pilet(s) published successfully!"]
              else [])).
Proof.
  destruct (uploadFiles_run env fullBase url l ca files [] w)
    as (uploads & w' & t & Hrun & _).
  exists uploads, w', t. split; [exact Hrun|].
  unfold uploadAndReport. unfold bind at 1. cbn [log emit].
  rewrite (bind_returned _ _ _ _ _ _ Hrun).
  destruct (Nat.eqb (length files) (length uploads)); reflexivity.
Qed.

Lemma uploadAndReport_no_resolution fullBase url l ca files (w : World) :
  filter isResolutionCall
         (snd (uploadAndReport env fullBase url l ca files w))
  = [].
Proof.
  destruct (uploadAndReport_shape fullBase url l ca files w)
    as (uploads & w' & t & Hloop & Hrun).
  rewrite Hrun. cbn [snd].
  pose proof (uploadFiles_calls fullBase url l ca files [] w) as Hcalls.
  rewrite Hloop in Hcalls. cbn [snd] in Hcalls.
  rewrite <- (filter_sub isResolutionCall isHelperCall)
    by (intros e; destruct e; cbn; congruence).
  change (filter isHelperCall ?t) with (helperCalls t).
  change (?e :: t ++ ?tail) with ([e] ++ t ++ tail).
  rewrite !helperCalls_app, Hcalls.
  replace (helperCalls
             (if Nat.eqb (length files) (length uploads)
              then [@EvLogDone BundlerArgs Hooks
                               "Pilet(s) published successfully!"]
              else []))
    with (@nil (@Event BundlerArgs Hooks))
    by (destruct (Nat.eqb (length files) (length uploads)); reflexivity).
  cbn [helperCalls filter isHelperCall app]. rewrite app_nil_r.
  apply loopCalls_no_resolution.
Qed.

Lemma uploadAndReport_posts fullBase url l ca files (w : World) :
  posts (snd (uploadAndReport env fullBase url l ca files w))
  = posts (loopCalls env fullBase url l ca files w).
Proof.
  destruct (uploadAndReport_shape fullBase url l ca files w)
    as (uploads & w' & t & Hloop & Hrun).
  rewrite Hrun. cbn [snd].
  pose proof (uploadFiles_calls fullBase url l ca files [] w) as Hcalls.
  rewrite Hloop in Hcalls. cbn [snd] in Hcalls.
  rewrite <- Hcalls.
  change (?e :: t ++ ?tail) with ([e] ++ t ++ tail).
  rewrite !posts_app.
  replace (posts
             (if Nat.eqb (length files) (length uploads)
              then [@EvLogDone BundlerArgs Hooks
                               "Pilet(s) published successfully!"]
              else []))
    with (@nil (@Event BundlerArgs Hooks))
    by (destruct (Nat.eqb (length files) (length uploads)); reflexivity).
  cbn [posts filter isPostFile app]. rewrite app_nil_r.
  unfold posts, helperCalls. symmetry. apply filter_sub.
  intros e; destruct e; cbn; congruence.
Qed.

(** A run of [publishPilet] in two parts: what comes before the upload
    loop, and the loop with the verdict when the run gets there. *)
Lemma publishPilet_split baseDir options (w : World) :
  let l := destructure env options in
  let fullBase :=
    path_resolve env (process_cwd env) (withDefault baseDir (process_cwd env)) in
  exists r w' before after,
    publishPilet env baseDir options w = (r, w', before ++ after)
    /\ filter isUploadEvent before = []
    /\ ((after = []
         /\ (r = Threw (Fatal missingPiletFeedUrl_0060 [])
             \/ (r = Threw TypeError /\ cert l = None)
             \/ (r = Threw (Fatal entryFileMissing_0077 []) /\ fresh l = true)
             \/ (r = Threw (Fatal missingPiletTarball_0061 (toArray (source l)))
                 /\ fresh l = false)))
        \/ (exists u ca w1 t1 files w2,
               url l = Some u
               /\ readCertificate env (cert l) w = (Returned ca, w1, t1)
               /\ files <> []
               /\ uploadAndReport env fullBase u l ca files w2 = (r, w', after))).
Proof.
  intros l fullBase. rewrite publishPilet_stages. cbv zeta. fold l. fold fullBase.
  destruct (url l) as [u|] eqn:Hurl.
  2:{ eexists _, _, _, []. rewrite app_nil_r. split; [reflexivity|].
      split; [reflexivity|]. left. split; [reflexivity|]. left. reflexivity. }
  destruct (truthy (Some u)).
  2:{ eexists _, _, _, []. rewrite app_nil_r. split; [reflexivity|].
      split; [reflexivity|]. left. split; [reflexivity|]. left. reflexivity. }
  pose proof (readCertificate_before (cert l) w) as Hb1.
  destruct (readCertificate env (cert l) w) as [[[ca|e] w1] t1] eqn:Hcert.
  2:{ destruct (readCertificate_throws _ _ _ _ _ Hcert) as [He Hnone].
      eexists _, _, _, []. rewrite app_nil_r. split; [reflexivity|].
      cbn [snd] in Hb1. split.
      - rewrite filter_app, Hb1. reflexivity.
      - left. split; [reflexivity|]. right. left. subst e. split; [reflexivity|].
        exact Hnone. }
  cbn [snd] in Hb1. rewrite publishFiles_stages.
  pose proof (getFiles_before fullBase (toArray (source l)) (from l) (fresh l)
                (schemaVersion l) (logLevel l) (bundlerName l) (args l) ca
                (hooks l) w1) as Hb2.
  pose proof (getFiles_endings fullBase (toArray (source l)) (from l) (fresh l)
                (schemaVersion l) (logLevel l) (bundlerName l) (args l) ca
                (hooks l) w1) as Hend.
  destruct (getFiles env fullBase (toArray (source l)) (from l) (fresh l)
                     (schemaVersion l) (logLevel l) (bundlerName l) (args l)
                     ca (hooks l) w1) as [[[files|e] w2] t2].
  - cbn [fst snd] in Hb2, Hend. destruct files as [|file rest].
    + eexists _, _, _, []. rewrite app_nil_r. split; [reflexivity|]. split.
      * rewrite !filter_app, Hb1.
        change (?e :: t2 ++ ?t) with ([e] ++ t2 ++ t).
        rewrite !filter_app, Hb2. reflexivity.
      * left. split; [reflexivity|]. right. right. right.
        split; [reflexivity|].
        destruct (fresh l); [|reflexivity].
        contradiction (Hend eq_refl). reflexivity.
    + destruct (uploadAndReport env fullBase u l ca (file :: rest) w2)
        as [[r w3] t3] eqn:Hup.
      exists r, w3.
      exists ([EvSetLogLevel (logLevel l);
               EvProgress "Reading configuration ..." []]
              ++ t1
              ++ EvLog generalDebug_0003 (ArgText "Getting the tgz files ...")
              :: t2
              ++ [EvLog generalDebug_0003
                        (ArgText "Received available tgz files.")]).
      exists t3. split.
      { rewrite <- !app_assoc. cbn [app]. rewrite <- !app_assoc. reflexivity. }
      split.
      * rewrite !filter_app, Hb1.
        change (?e :: t2 ++ ?t) with ([e] ++ t2 ++ t).
        rewrite !filter_app, Hb2. reflexivity.
      * right. exists u, ca, w1, t1, (file :: rest), w2.
        repeat split; [discriminate|exact Hup].
  - cbn [fst snd] in Hb2, Hend. destruct Hend as [He Hfresh].
    eexists _, _, _, []. rewrite app_nil_r. split; [reflexivity|]. split.
    + rewrite !filter_app, Hb1.
      change (?e :: t2) with ([e] ++ t2).
      rewrite !filter_app, Hb2. reflexivity.
    + left. split; [reflexivity|]. right. right. left. subst e.
      split; [reflexivity|exact Hfresh].
Qed.

(** ** The runs of [publishPilet] *)

(** X8.  In every run of [publishPilet] the resolution comes before the
    uploads: the trace is one part without any post, recorded outcome or
    message of success, followed by one part without any call that looks
    for the certificate or resolves the files. *)
Theorem resolution_comes_before_the_uploads baseDir options (w : World) :
  exists before after,
    snd (publishPilet env baseDir options w) = before ++ after
    /\ filter isUploadEvent before = []
    /\ filter isResolutionCall after = [].
Proof.
  destruct (publishPilet_split baseDir options w)
    as (r & w' & before & after & Hrun & Hbefore & Hcases).
  exists before, after. rewrite Hrun. split; [reflexivity|].
  split; [exact Hbefore|].
  destruct Hcases as [[Hnil _]|(u & ca & w1 & t1 & files & w2 & _ & _ & _ & Hup)].
  - subst after. reflexivity.
  - pose proof (uploadAndReport_no_resolution
                  (path_resolve env (process_cwd env)
                                (withDefault baseDir (process_cwd env)))
                  u (destructure env options) ca files w2) as Hnone.
    rewrite Hup in Hnone. exact Hnone.
Qed.

(** X10.  The message of success is logged exactly by the runs that
    return: it is then the last event of the trace and is logged once; a
    run that throws does not log it. *)
Theorem success_is_logged_exactly_on_return baseDir options (w : World) :
  match fst (fst (publishPilet env baseDir options w)) with
  | Returned _ =>
      exists t,
        snd (publishPilet env baseDir options w)
        = t ++ [EvLogDone "Pilet(s) published successfully!"]
        /\ filter isLogDone t = []
  | Threw _ => filter isLogDone (snd (publishPilet env baseDir options w)) = []
  end.
Proof.
  destruct (publishPilet_split baseDir options w)
    as (r & w' & before & after & Hrun & Hbefore & Hcases).
  rewrite Hrun. cbn [fst snd].
  assert (Hdone : filter isLogDone before = []).
  { apply (filter_none_sub isLogDone isUploadEvent); [|exact Hbefore].
    intros e He. unfold isUploadEvent. rewrite He.
    destruct (isPostFile e); reflexivity. }
  destruct Hcases as [[Hnil Hearly]
                     |(u & ca & w1 & t1 & files & w2 & _ & _ & _ & Hup)].
  - subst after. rewrite app_nil_r.
    destruct Hearly as [H|[[H _]|[[H _]|[H _]]]]; subst r; exact Hdone.
  - destruct (uploadAndReport_shape
                (path_resolve env (process_cwd env)
                                (withDefault baseDir (process_cwd env)))
                u (destructure env options) ca files w2)
      as (uploads & w3 & t & Hloop & Hshape).
    rewrite Hshape in Hup.
    pose proof (uploadFiles_no_done
                  (path_resolve env (process_cwd env)
                                (withDefault baseDir (process_cwd env)))
                  u (destructure env options) ca files [] w2) as Hquiet.
    rewrite Hloop in Hquiet. cbn [snd] in Hquiet.
    destruct (Nat.eqb (length files) (length uploads));
      injection Hup as Hr _ Hafter; subst r after.
    + eexists. split.
      * change (?e :: t ++ ?tail) with (([e] ++ t) ++ tail).
        rewrite app_assoc. reflexivity.
      * rewrite !filter_app, Hdone, Hquiet. reflexivity.
    + rewrite app_nil_r.
      change (?e :: t) with ([e] ++ t).
      rewrite !filter_app, Hdone, Hquiet. reflexivity.
Qed.

(** Every post of a run is made with the locals of the run and with what
    the certificate stage returned. *)
Lemma posts_of_a_run baseDir options (w : World) u ca w1 t1 :
  let l := destructure env options in
  url l = Some u ->
  readCertificate env (cert l) w = (Returned ca, w1, t1) ->
  Forall (fun e =>
            exists content,
              e = EvPostFile u (mode l) (apiKey l) content (fields l)
                             (headers l) ca (interactive l))
         (posts (snd (publishPilet env baseDir options w))).
Proof.
  intros l Hurl Hcert.
  destruct (publishPilet_split baseDir options w)
    as (r & w' & before & after & Hrun & Hbefore & Hcases).
  rewrite Hrun. cbn [snd]. rewrite posts_app.
  replace (posts before) with (@nil (@Event BundlerArgs Hooks)).
  2:{ symmetry. apply (filter_none_sub isPostFile isUploadEvent);
        [|exact Hbefore].
      intros e He. unfold isUploadEvent. rewrite He. reflexivity. }
  cbn [app].
  destruct Hcases as [[Hnil _]
                     |(u' & ca' & w1' & t1' & files & w2 & Hurl' & Hcert' & _
                       & Hup)].
  - subst after. constructor.
  - fold l in Hurl', Hcert', Hup. rewrite Hurl in Hurl'. rewrite Hcert in Hcert'.
    injection Hurl' as <-. injection Hcert' as <- _ _.
    pose proof (uploadAndReport_posts
                  (path_resolve env (process_cwd env)
                                (withDefault baseDir (process_cwd env)))
                  u l ca files w2) as Hposts.
    rewrite Hup in Hposts. cbn [snd] in Hposts. rewrite Hposts.
    apply loopCalls_posts.
Qed.

(** X4.  All the uploads of a run are made alike: every call of [postFile]
    goes to the feed URL of the run, with the same scheme, API key, fields,
    headers and interactive flag, and with the certificate that was loaded
    at the start; only the content differs. *)
Theorem every_post_carries_the_settings_of_the_run baseDir options (w : World)
  u ca w1 t1 :
  let l := destructure env options in
  url l = Some u ->
  readCertificate env (cert l) w = (Returned ca, w1, t1) ->
  Forall (fun e =>
            exists content,
              e = EvPostFile u (mode l) (apiKey l) content (fields l)
                             (headers l) ca (interactive l))
         (posts (snd (publishPilet env baseDir options w))).
Proof. exact (posts_of_a_run baseDir options w u ca w1 t1). Qed.

(** X6.  The options win over the configuration.  When they name a feed
    URL and an API key, every upload of the run goes to that URL with that
    key, whatever the configuration holds.  When they name no API key and
    the configuration holds one for the feed URL of the run in [apiKeys],
    every upload is made with that one, whatever [config.apiKey] is. *)
Theorem options_win_over_the_configuration baseDir options (w : World) ca w1
  t1 :
  readCertificate env (cert (destructure env options)) w
  = (Returned ca, w1, t1) ->
  (forall u key,
      opt_url options = Some u ->
      opt_apiKey options = Some key ->
      Forall (fun e =>
                exists scheme content fields headers interactive,
                  e = EvPostFile u scheme (Some key) content fields headers ca
                                 interactive)
             (posts (snd (publishPilet env baseDir options w))))
  /\ (forall u keys key,
        url (destructure env options) = Some u ->
        opt_apiKey options = None ->
        config_apiKeys (config env) = Some keys ->
        getProperty keys u = Some key ->
        Forall (fun e =>
                  exists scheme content fields headers interactive,
                    e = EvPostFile u scheme (Some key) content fields headers
                                   ca interactive)
               (posts (snd (publishPilet env baseDir options w)))).
Proof.
  intros Hcert. split.
  - intros u key Hu Hkey.
    assert (Hurl : url (destructure env options) = Some u)
      by (unfold destructure; cbn; rewrite Hu; reflexivity).
    assert (Hapi : apiKey (destructure env options) = Some key)
      by (unfold destructure; cbn; rewrite Hkey; reflexivity).
    pose proof (posts_of_a_run baseDir options w u ca w1 t1 Hurl Hcert) as Hall.
    cbv zeta in Hall. rewrite Hapi in Hall.
    eapply Forall_impl; [|exact Hall].
    intros e (content & ->). eauto 10.
  - intros u keys key Hurl Hnone Hkeys Hget.
    assert (Hapi : apiKey (destructure env options) = Some key).
    { assert (Hurl' :
                nullish (opt_url options)
                        (nullish (config_url (config env))
                                 (def_url (publishPiletDefaults env)))
                = Some u) by exact Hurl.
      unfold destructure. cbn [apiKey]. rewrite Hnone, Hurl'. cbn [nullish].
      unfold apiKeysAt. rewrite Hkeys. cbn [propertyKey]. rewrite Hget.
      reflexivity. }
    pose proof (posts_of_a_run baseDir options w u ca w1 t1 Hurl Hcert) as Hall.
    cbv zeta in Hall. rewrite Hapi in Hall.
    eapply Forall_impl; [|exact Hall].
    intros e (content & ->). eauto 10.
Qed.



(** X14.  An empty [url] option is not replaced by the URL of the
    configuration: the run throws [missingPiletFeedUrl_0060] at once,
    whatever the configuration holds. *)
Theorem empty_url_option_is_fatal baseDir options (w : World) :
  opt_url options = Some EmptyString ->
  publishPilet env baseDir options w
  = (Threw (Fatal missingPiletFeedUrl_0060 []), w,
     [EvSetLogLevel (logLevel (destructure env options));
      EvProgress "Reading configuration ..." []]).
Proof.
  intros Hurl. rewrite publishPilet_stages. cbv zeta.
  assert (Hl : url (destructure env options) = Some EmptyString)
    by (unfold destructure; cbn; rewrite Hurl; reflexivity).
  rewrite Hl. reflexivity.
Qed.

(** X3.  With neither [source], [fresh] nor [from] in the options, the
    files of a run are what the one pattern ['*.tgz'] matches from the
    base directory: past the certificate the helper calls are this one
    call of [matchFiles] and then the reads and posts of the matched
    files, in their order. *)
Theorem default_run_matches_tgz_archives fullBase u options ca (w : World) :
  opt_source options = None ->
  opt_fresh options = None ->
  opt_from options = None ->
  helperCalls (snd (publishFiles env fullBase u (destructure env options) ca w))
  = EvMatchFiles fullBase "*.tgz"
    :: loopCalls env fullBase u (destructure env options) ca
                 (fst (env_matchFiles env fullBase "*.tgz" w))
                 (snd (env_matchFiles env fullBase "*.tgz" w)).
Proof.
  intros Hsource Hfresh Hfrom.
  rewrite publishFiles_stages.
  assert (Hsrc : toArray (source (destructure env options)) = ["*.tgz"])
    by (unfold destructure; cbn; rewrite Hsource, Hfresh; reflexivity).
  assert (Hfr : fresh (destructure env options) = false)
    by (unfold destructure; cbn; rewrite Hfresh; reflexivity).
  assert (Hfm : from (destructure env options) = local)
    by (unfold destructure; cbn; rewrite Hfrom; reflexivity).
  rewrite Hsrc, Hfr, Hfm.
  unfold getFiles. unfold bind at 1. cbn [log emit].
  unfold bind at 1. cbn [log emit].
  cbn [promiseAllMap]. unfold matchFiles, call, bind, ret.
  destruct (env_matchFiles env fullBase "*.tgz" w) as [matched w1].
  cbn [fst snd app flatten fold_left].
  destruct matched as [|file rest].
  - reflexivity.
  - pose proof (uploadAndReport_shape fullBase u (destructure env options) ca
                  (file :: rest) w1) as (uploads & w2 & t & Hloop & Hshape).
    pose proof (uploadFiles_calls fullBase u (destructure env options) ca
                  (file :: rest) [] w1) as Hcalls.
    rewrite Hloop in Hcalls. cbn [snd] in Hcalls.
    rewrite Hshape. cbn [snd].
    change (?a :: ?b :: ?c :: ?d :: ?e :: ?f :: t ++ ?tail)
      with ([a; b; c; d; e; f] ++ t ++ tail).
    rewrite !helperCalls_app, Hcalls.
    replace (helperCalls
               (if Nat.eqb (length (file :: rest)) (length uploads)
                then [@EvLogDone BundlerArgs Hooks
                                 "Pilet(s) published successfully!"]
                else []))
      with (@nil (@Event BundlerArgs Hooks))
      by (destruct (Nat.eqb (length (file :: rest)) (length uploads));
          reflexivity).
    rewrite app_nil_r. reflexivity.
Qed.

End More.

(** * More runs of the scripted environment *)

(** A fresh build of two entry modules. *)
Lemma fresh_build_gives_one_archive_per_entry_witness :
  Forall2 (packedFrom (scripted ["x"; "y"] globNone [] noConfig) true None 3%Z
                      None tt tt)
          ["x"; "y"] ["x.tgz"; "y.tgz"].
Proof.
  eapply (proj1 (proj2 (fresh_build_gives_one_archive_per_entry
                          (scripted ["x"; "y"] globNone [] noConfig) "/work"
                          ["./src/index"] local None 3%Z None tt None tt
                          [ok200] ["x"; "y"] [ok200] ["x.tgz"; "y.tgz"] [ok200]
                          _ eq_refl eq_refl))).
Defined.

(** Both builds are triggered before the first pack. *)
Example scenario_fresh_build_of_two_entries :
  helperCalls
    (snd (getFiles (scripted ["x"; "y"] globNone [] noConfig) "/work"
                   ["./src/index"] local true None 3%Z None tt None tt
                   [ok200]))
  = [EvMatchAnyPilet "/work" ["./src/index"];
     EvTriggerBuildPilet (buildArgsOf true None 3%Z None tt tt "x");
     EvTriggerBuildPilet (buildArgsOf true None 3%Z None tt tt "y");
     EvCreatePiletPackage "x" "." ".";
     EvCreatePiletPackage "y" "." "."].
Proof. reflexivity. Qed.

(** Two archives are posted to the feed of the options. *)
Lemma every_post_carries_the_settings_of_the_run_witness :
  Forall (fun e =>
            exists content,
              e = @EvPostFile unit unit "https://feed.example/api" "basic"
                              (Some "secret") content [] [] None false)
         (posts (snd (publishPilet (scripted [] globTwo [] noConfig) None
                                   (feedOptions None None None None)
                                   [conflict409; ok200]))).
Proof.
  apply (every_post_carries_the_settings_of_the_run
           (scripted [] globTwo [] noConfig) None
           (feedOptions None None None None) [conflict409; ok200]
           "https://feed.example/api" None [conflict409; ok200]
           [EvLog generalDebug_0003 (ArgText "Checking if certificate exists.");
            EvCheckExists None]).
  - reflexivity.
  - reflexivity.
Defined.

(** The key of the options is used although the configuration holds keys;
    without it the key that the configuration holds for the feed is. *)
Lemma options_win_over_the_configuration_witness :
  Forall (fun e =>
            exists scheme content fields headers interactive,
              e = @EvPostFile unit unit "https://feed.example/api" scheme
                              (Some "secret") content fields headers None
                              interactive)
         (posts (snd (publishPilet (scripted [] globTwo [] keyedConfig) None
                                   (feedOptions None None None None)
                                   [ok200; ok200])))
  /\ Forall (fun e =>
               exists scheme content fields headers interactive,
                 e = @EvPostFile unit unit "https://feed.example/api" scheme
                                 (Some "feed-key") content fields headers None
                                 interactive)
            (posts (snd (publishPilet (scripted [] globTwo [] keyedConfig) None
                                      noOptions [ok200; ok200]))).
Proof.
  split.
  - apply (proj1 (options_win_over_the_configuration
                    (scripted [] globTwo [] keyedConfig) None
                    (feedOptions None None None None) [ok200; ok200] None
                    [ok200; ok200]
                    [EvLog generalDebug_0003
                           (ArgText "Checking if certificate exists.");
                     EvCheckExists None] eq_refl)
                 "https://feed.example/api" "secret"); reflexivity.
  - apply (proj2 (options_win_over_the_configuration
                    (scripted [] globTwo [] keyedConfig) None noOptions
                    [ok200; ok200] None [ok200; ok200]
                    [EvLog generalDebug_0003
                           (ArgText "Checking if certificate exists.");
                     EvCheckExists None] eq_refl)
                 "https://feed.example/api"
                 [("https://other.example/api", "other-key");
                  ("https://feed.example/api", "feed-key")]
                 "feed-key"); reflexivity.
Defined.



(** The options hold the empty URL and the configuration a feed. *)
Lemma empty_url_option_is_fatal_witness :
  publishPilet (scripted [] globTwo [] keyedConfig) None emptyUrlOptions [ok200]
  = (Threw (Fatal missingPiletFeedUrl_0060 []), [ok200],
     [EvSetLogLevel 3%Z; EvProgress "Reading configuration ..." []]).
Proof.
  apply (empty_url_option_is_fatal (scripted [] globTwo [] keyedConfig) None
           emptyUrlOptions [ok200]).
  reflexivity.
Defined.

(** The feed of the configuration and no option: two archives match. *)
Lemma default_run_matches_tgz_archives_witness :
  helperCalls
    (snd (publishFiles (scripted [] globTwo [] keyedConfig) "/work"
                       "https://feed.example/api"
                       (destructure (scripted [] globTwo [] keyedConfig)
                                    noOptions)
                       None [ok200; ok200]))
  = [EvMatchFiles "/work" "*.tgz";
     EvReadBinary "/work" "a.tgz";
     EvPostFile "https://feed.example/api" "basic" (Some "feed-key") [] [] []
                None false;
     EvReadBinary "/work" "b.tgz";
     EvPostFile "https://feed.example/api" "basic" (Some "feed-key") [] [] []
                None false].
Proof.
  rewrite (default_run_matches_tgz_archives
             (scripted [] globTwo [] keyedConfig) "/work"
             "https://feed.example/api" noOptions None [ok200; ok200]
             eq_refl eq_refl eq_refl).
  reflexivity.
Defined.
